(** * examples/tracing/main.py: the tracing example agent

    A shallow embedding of the script [examples/tracing/main.py] and the
    properties of its observable behaviour: which calls it makes into the
    telemetry, tool-server (MCP) and agent libraries, in which order, what
    it prints, and how the process terminates.

    The script is glue code over third-party libraries.  Every call that
    leaves the script is recorded as an [event] in a chronological log, and
    what the outside world answers (the command line, the environment, the
    file system, the tool server, the model provider) is collected in a
    record [World].  The script itself is a function of the world. *)

From Stdlib Require Import String Ascii List ZArith Bool.
Import ListNotations.
Local Open Scope string_scope.
Local Open Scope list_scope.

(** ** Data of the libraries the script goes through *)

(** The dict [{"url": mcp_url, "timeout": 300.0}] handed to
    [MCPServerStreamableHttp]; the timeout is kept in whole seconds. *)
Record MCPServerStreamableHttpParams := {
  url : string;
  timeout : Z
}.

(** [MCPServerStreamableHttp(params, cache_tools_list=...)]: the server
    object, which is also the connection once entered. *)
Record MCPServerStreamableHttp := {
  params : MCPServerStreamableHttpParams;
  cache_tools_list : bool
}.

(** A tool descriptor as the tool server lists it. *)
Record MCPTool := {
  name : string;
  description : string;
  inputSchema : string
}.

(** [MCPUtil.to_function_tool(tool, server, convert_schemas_to_strict)]:
    the callable tool of the agent runtime; it keeps the descriptor, the
    server its invocations go to, and the schema mode. *)
Record Tool := {
  mcp_tool : MCPTool;
  tool_server : MCPServerStreamableHttp;
  convert_schemas_to_strict : bool
}.

(** What [OpenAIProvider(...).get_model(...)] returns; opaque to the
    script, so any value the provider chooses. *)
Record Model := {
  model_id : string
}.

Record Agent := {
  agent_name : string;
  agent_model : Model;
  agent_tools : list Tool
}.

Record RunConfig := {
  workflow_name : string
}.

(** The result of [Runner.run]; the script reads [final_output] only, and
    [print] renders it as text. *)
Record RunResult := {
  final_output : string
}.

(** ** Exceptions and outcomes *)

(** What a library call can raise into the script: an ordinary exception
    (named by its class), or the cancellation of the running task. *)
Inductive exn :=
| Exception (cls : string)
| CancelledError.

Inductive outcome (A : Type) :=
| Ok (a : A)
| Raise (e : exn).
Arguments Ok {A} a.
Arguments Raise {A} e.

(** ** Events: every call that leaves the script *)

Inductive event :=
| EvImport (module : string)
| EvInitialize
| EvOpen (path : string)
| EvRead
| EvPrint (line : string)
| EvConnect (server : MCPServerStreamableHttp)
| EvListTools (server : MCPServerStreamableHttp)
| EvCleanup (server : MCPServerStreamableHttp)
| EvGetModel (use_responses : bool) (model_name : option string)
| EvRunnerRun (starting_agent : Agent) (input : string) (run_config : RunConfig).

(** ** The world *)

Record World := {
  (* the command line: the positional [prompt], [--model], [--mcp-url] *)
  arg_prompt : option string;
  arg_model : option string;
  arg_mcp_url : option string;
  (* [os.getenv] *)
  getenv : string -> option string;
  (* the file system and standard input *)
  fs_open : string -> outcome unit;
  fs_read : string -> outcome string;
  stdin_read : outcome string;
  (* [auto_instrumentation.initialize()] *)
  otel_initialize : outcome unit;
  (* the tool server: [__aenter__], [list_tools], [__aexit__] *)
  mcp_connect : MCPServerStreamableHttp -> outcome unit;
  mcp_list_tools : MCPServerStreamableHttp -> outcome (list MCPTool);
  mcp_cleanup : MCPServerStreamableHttp -> outcome unit;
  (* the agent runtime *)
  provider_get_model : bool -> option string -> outcome Model;
  runner_run : Agent -> string -> RunConfig -> outcome RunResult
}.

(** ** The monad of the script: a log of events and an outcome *)

Definition M (A : Type) : Type := list event * outcome A.

Definition ret {A} (a : A) : M A := ([], Ok a).

Definition bind {A B} (m : M A) (f : A -> M B) : M B :=
  match m with
  | (l1, Ok a) => let (l2, r) := f a in (l1 ++ l2, r)
  | (l1, Raise e) => (l1, Raise e)
  end.

Notation "x <- m ;; k" := (bind m (fun x => k))
  (at level 61, m at next level, right associativity).
Notation "m ;;; k" := (bind m (fun _ => k))
  (at level 61, right associativity).

(** A call into a library: the call is logged, then the world answers. *)
Definition call {A} (e : event) (answer : outcome A) : M A := ([e], answer).

(** The exception that leaves an [async with] block whose body ended in
    [rb] and whose [__aexit__] ended in [rx]. *)
Definition after_exit {A} (rb : outcome A) (rx : outcome unit) : outcome A :=
  match rx with
  | Raise e => Raise e
  | Ok _ => rb
  end.

(** [async with cm as x: body]: [__aenter__] is awaited; if it raises, the
    body and [__aexit__] are skipped.  Otherwise the body runs and
    [__aexit__] is awaited once whatever the body's outcome; it returns
    [None] here, so an exception of the body is not swallowed, and an
    exception of [__aexit__] itself replaces the body's outcome. *)
Definition async_with {S A} (aenter : M S) (aexit : S -> M unit)
    (body : S -> M A) : M A :=
  match aenter with
  | (l1, Raise e) => (l1, Raise e)
  | (l1, Ok s) =>
      let (l2, rb) := body s in
      let (l3, rx) := aexit s in
      (l1 ++ l2 ++ l3, after_exit rb rx)
  end.

(** ** Python renderings *)

(** [f"{x}"] for a value that is a string or [None]. *)
Definition py_str (x : option string) : string :=
  match x with
  | Some s => s
  | None => "None"
  end.

(** Truthiness of a value that is a string or [None]. *)
Definition truthy (x : option string) : bool :=
  match x with
  | Some s => negb (String.eqb s "")
  | None => false
  end.

(** The string behind a value that passed the truthiness test. *)
Definition string_of (x : option string) : string :=
  match x with
  | Some s => s
  | None => ""
  end.

(** [print(s)]: the line is written; standard output is taken to accept
    what is written to it. *)
Definition print (s : string) : M unit := call (EvPrint s) (Ok tt).

(** ** The script *)

Section Script.

Variable w : World.

Definition to_function_tool (tool : MCPTool) (server : MCPServerStreamableHttp)
    (strict : bool) : Tool :=
  {| mcp_tool := tool; tool_server := server;
     convert_schemas_to_strict := strict |}.

(** [async def run_agent(prompt, model_name, tools)] *)
Definition run_agent (prompt : string) (model_name : option string)
    (tools : list Tool) : M unit :=
  model <- call (EvGetModel false model_name)
             (provider_get_model w false model_name) ;;
  let agent := {| agent_name := "Assistant"; agent_model := model;
                  agent_tools := tools |} in
  let run_config := {| workflow_name := "envoy-ai-gateway" |} in
  result <- call (EvRunnerRun agent prompt run_config)
              (runner_run w agent prompt run_config) ;;
  print (final_output result).

(** The connection object of line 66 and its context-manager protocol. *)
Definition mcp_server (mcp_url : string) : MCPServerStreamableHttp :=
  {| params := {| url := mcp_url; timeout := 300 |};
     cache_tools_list := true |}.

Definition aenter (server : MCPServerStreamableHttp)
    : M MCPServerStreamableHttp :=
  call (EvConnect server) (mcp_connect w server) ;;; ret server.

Definition aexit (server : MCPServerStreamableHttp) : M unit :=
  call (EvCleanup server) (mcp_cleanup w server).

Definition list_tools (server : MCPServerStreamableHttp) : M (list MCPTool) :=
  call (EvListTools server) (mcp_list_tools w server).

(** [async def main(prompt, model_name, mcp_url)] *)
Definition main (prompt : string) (model_name mcp_url : option string)
    : M unit :=
  if negb (truthy mcp_url) then
    run_agent prompt model_name []
  else
    async_with (aenter (mcp_server (string_of mcp_url))) aexit (fun server =>
      tools <- list_tools server ;;
      let tools := map (fun tool => to_function_tool tool server false) tools in
      run_agent prompt model_name tools).

(** The namespace [parser.parse_args()] returns. *)
Inductive stream :=
| Stdin
| File (path : string).

Record Namespace := {
  ns_prompt : stream;
  ns_model : option string;
  ns_mcp_url : option string
}.

(** An optional argument with [default=d]: the value on the command line
    when the flag is given, the default otherwise. *)
Definition store (given default : option string) : option string :=
  match given with
  | Some v => Some v
  | None => default
  end.

(** [parser.parse_args()] on a command line made of the arguments the
    script declares and the world holds: the positional [prompt],
    [--model] and [--mcp-url].  The positional has
    [type=argparse.FileType('r')], [nargs='?'] and [default=sys.stdin]: a
    path on the command line is opened while parsing ("-" stands for
    standard input), and a path that cannot be opened is an argument error,
    which [parser.error] reports before leaving the process with status 2.
    Without the positional the default, standard input, is taken as it is.
    What the parser does with [-h]/[--help] and with a line it rejects is
    in [process] below. *)
Definition parse_args : list event * (Namespace + Z) :=
  let model := store (arg_model w) (getenv w "CHAT_MODEL") in
  let mcp := store (arg_mcp_url w) (getenv w "MCP_URL") in
  let ns s := {| ns_prompt := s; ns_model := model; ns_mcp_url := mcp |} in
  match arg_prompt w with
  | None => ([], inl (ns Stdin))
  | Some path =>
      if String.eqb path "-" then ([], inl (ns Stdin))
      else
        match fs_open w path with
        | Ok _ => ([EvOpen path], inl (ns (File path)))
        | Raise _ => ([EvOpen path], inr 2%Z)
        end
  end.

(** [args.prompt.read()] *)
Definition read (s : stream) : M string :=
  match s with
  | Stdin => call EvRead (stdin_read w)
  | File path => call EvRead (fs_read w path)
  end.

(** Lines 79 to 85: the block under [if __name__ == "__main__"] once the
    arguments are parsed. *)
Definition main_block (args : Namespace) : M unit :=
  prompt <- read (ns_prompt args) ;;
  print ("Prompt: " ++ prompt) ;;;
  print ("Using model: " ++ py_str (ns_model args)) ;;;
  print ("Using MCP URL: " ++ py_str (ns_mcp_url args)) ;;;
  main prompt (ns_model args) (ns_mcp_url args).

(** Lines 30 to 47: the telemetry import and initialisation, then the
    other imports. *)
Definition prelude : M unit :=
  call (EvImport "opentelemetry.instrumentation") (Ok tt) ;;;
  call EvInitialize (otel_initialize w) ;;;
  call (EvImport "argparse") (Ok tt) ;;;
  call (EvImport "asyncio") (Ok tt) ;;;
  call (EvImport "os") (Ok tt) ;;;
  call (EvImport "sys") (Ok tt) ;;;
  call (EvImport "agents") (Ok tt) ;;;
  call (EvImport "agents.mcp") (Ok tt).

(** How the process ends: the module body ran to its end, an exception
    escaped it, or [SystemExit] was raised with a status. *)
Inductive termination :=
| Returned
| Uncaught (e : exn)
| SystemExit (code : Z).

Definition finish (r : outcome unit) : termination :=
  match r with
  | Ok _ => Returned
  | Raise e => Uncaught e
  end.

(** The whole module, run as [__main__] on a command line made of the
    declared arguments. *)
Definition script : list event * termination :=
  match prelude with
  | (l0, Raise e) => (l0, Uncaught e)
  | (l0, Ok _) =>
      match parse_args with
      | (l1, inr code) => (l0 ++ l1, SystemExit code)
      | (l1, inl args) =>
          let (l2, r) := main_block args in
          (l0 ++ l1 ++ l2, finish r)
      end
  end.

End Script.

(** The status the interpreter leaves the process with: 0 at the end of
    the module, 1 after the traceback of an uncaught exception, the given
    status for [SystemExit].  A cancellation that comes from an interrupt
    (Ctrl-C) leaves [asyncio.run] as [KeyboardInterrupt] and ends the
    process by the signal, and an output that cannot be flushed at exit
    turns the status into 120; the script sees neither, and of the status
    after a cancellation nothing more is used below than that it is not
    0. *)
Definition exit_status (t : termination) : Z :=
  match t with
  | Returned => 0
  | Uncaught _ => 1
  | SystemExit code => code
  end.

Definition trace (w : World) : list event := fst (script w).
Definition ending (w : World) : termination := snd (script w).

(** ** The other ways out of the argument parser *)

(** The parser of lines 74 to 78 is an [ArgumentParser] with its defaults,
    so besides the declared arguments it knows [-h]/[--help], and it
    rejects what it cannot parse (an unknown option, a flag without its
    value, a second positional).  A command line is therefore one of:
    the declared arguments only, which the world holds; a line on which
    the parser comes to [-h] or [--help]; a line the parser rejects.  In
    the last two cases [converted] is the positional the parser has handed
    to [FileType] by the time it leaves, if any. *)
Inductive command_line :=
| Declared
| HelpOption (converted : option string)
| Rejected (converted : option string).

(** [FileType('r')] on the positional, when there is one: the events, and
    whether the parser goes on. *)
Definition convert_prompt (w : World) (p : option string)
    : list event * bool :=
  match p with
  | None => ([], true)
  | Some path =>
      if String.eqb path "-" then ([], true)
      else
        match fs_open w path with
        | Ok _ => ([EvOpen path], true)
        | Raise _ => ([EvOpen path], false)
        end
  end.

(** A run of the process: the events, whether the help text was written
    to standard output, and how the process ends. *)
Record process_run := {
  events : list event;
  help_on_stdout : bool;
  process_end : termination
}.

(** The module on any command line.  The help action calls [print_help()],
    which writes to standard output, and [parser.exit()], status 0;
    [parser.error] writes the usage and the message to standard error and
    exits with status 2.  All of this comes after the telemetry
    initialisation and the imports, and before anything is read. *)
Definition process (c : command_line) (w : World) : process_run :=
  match c with
  | Declared =>
      {| events := trace w; help_on_stdout := false;
         process_end := ending w |}
  | HelpOption p =>
      match prelude w with
      | (l0, Raise e) =>
          {| events := l0; help_on_stdout := false;
             process_end := Uncaught e |}
      | (l0, Ok _) =>
          let (l1, goes_on) := convert_prompt w p in
          if goes_on then
            {| events := l0 ++ l1; help_on_stdout := true;
               process_end := SystemExit 0 |}
          else
            {| events := l0 ++ l1; help_on_stdout := false;
               process_end := SystemExit 2 |}
      end
  | Rejected p =>
      match prelude w with
      | (l0, Raise e) =>
          {| events := l0; help_on_stdout := false;
             process_end := Uncaught e |}
      | (l0, Ok _) =>
          let (l1, _) := convert_prompt w p in
          {| events := l0 ++ l1; help_on_stdout := false;
             process_end := SystemExit 2 |}
      end
  end.

(** The stream [args.prompt] is on a command line of declared arguments. *)
Definition prompt_stream (w : World) : stream :=
  match arg_prompt w with
  | None => Stdin
  | Some path => if String.eqb path "-" then Stdin else File path
  end.

(** ** Observations on a log *)

Definition is_initialize (e : event) : bool :=
  match e with EvInitialize => true | _ => false end.

Definition is_connect (e : event) : bool :=
  match e with EvConnect _ => true | _ => false end.

Definition is_cleanup (e : event) : bool :=
  match e with EvCleanup _ => true | _ => false end.

(** A call to the tool server. *)
Definition is_mcp (e : event) : bool :=
  match e with
  | EvConnect _ | EvListTools _ | EvCleanup _ => true
  | _ => false
  end.

Definition is_runner_run (e : event) : bool :=
  match e with EvRunnerRun _ _ _ => true | _ => false end.

(** A call into the agent runtime: the model provider or the runner. *)
Definition is_agent (e : event) : bool :=
  match e with
  | EvGetModel _ _ | EvRunnerRun _ _ _ => true
  | _ => false
  end.

Definition count (p : event -> bool) (l : list event) : nat :=
  length (filter p l).

(** The arguments of the [print] calls, in order. *)
Fixpoint printed (l : list event) : list string :=
  match l with
  | [] => []
  | EvPrint s :: l' => s :: printed l'
  | _ :: l' => printed l'
  end.

Definition newline : string := String "010"%char "".

(** Standard output: [print] writes its argument and a newline. *)
Definition stdout (l : list event) : string :=
  String.concat "" (map (fun s => (s ++ newline)%string) (printed l)).

(** The model name and tool-server URL the script works with. *)
Definition resolved_model (w : World) : option string :=
  store (arg_model w) (getenv w "CHAT_MODEL").

Definition resolved_mcp_url (w : World) : option string :=
  store (arg_mcp_url w) (getenv w "MCP_URL").

(** The run gets as far as [asyncio.run(main(prompt, ...))]: telemetry is
    initialised, the arguments parse and the prompt is read. *)
Definition reaches_main (w : World) (prompt : string) : Prop :=
  otel_initialize w = Ok tt /\
  exists l args, parse_args w = (l, inl args) /\
                 snd (read w (ns_prompt args)) = Ok prompt.

(** ** The shapes a log can take *)

(** The agent [run_agent] builds around a model and a tool set, and the
    run configuration it passes. *)
Definition assistant (model : Model) (tools : list Tool) : Agent :=
  {| agent_name := "Assistant"; agent_model := model; agent_tools := tools |}.

Definition gateway_run : RunConfig :=
  {| workflow_name := "envoy-ai-gateway" |}.

(** What a log of [run_agent] can look like, with the answers of the
    world that lead to it. *)
Inductive run_agent_log (w : World) (prompt : string)
    (model_name : option string) (tools : list Tool)
    : list event -> outcome unit -> Prop :=
| ral_no_model e :
    provider_get_model w false model_name = Raise e ->
    run_agent_log w prompt model_name tools
      [EvGetModel false model_name] (Raise e)
| ral_run_fails model e :
    provider_get_model w false model_name = Ok model ->
    runner_run w (assistant model tools) prompt gateway_run = Raise e ->
    run_agent_log w prompt model_name tools
      [EvGetModel false model_name;
       EvRunnerRun (assistant model tools) prompt gateway_run] (Raise e)
| ral_done model result :
    provider_get_model w false model_name = Ok model ->
    runner_run w (assistant model tools) prompt gateway_run = Ok result ->
    run_agent_log w prompt model_name tools
      [EvGetModel false model_name;
       EvRunnerRun (assistant model tools) prompt gateway_run;
       EvPrint (final_output result)] (Ok tt).

(** The imports that follow the telemetry initialisation. *)
Definition later_imports : list event :=
  [EvImport "argparse"; EvImport "asyncio"; EvImport "os"; EvImport "sys";
   EvImport "agents"; EvImport "agents.mcp"].

Definition telemetry_first : list event :=
  [EvImport "opentelemetry.instrumentation"; EvInitialize].

(** The log up to the call of [main], for a run that gets there. *)
Definition after_telemetry (w : World) (prompt : string) : list event :=
  later_imports ++ fst (parse_args w)
    ++ [EvRead;
        EvPrint ("Prompt: " ++ prompt);
        EvPrint ("Using model: " ++ py_str (resolved_model w));
        EvPrint ("Using MCP URL: " ++ py_str (resolved_mcp_url w))].

Definition startup_log (w : World) (prompt : string) : list event :=
  telemetry_first ++ after_telemetry w prompt.

(** The runs that end before [main] is called. *)
Inductive stops_early (w : World) : list event -> termination -> Prop :=
| se_initialize e :
    otel_initialize w = Raise e ->
    stops_early w telemetry_first (Uncaught e)
| se_open path e :
    otel_initialize w = Ok tt ->
    arg_prompt w = Some path -> path <> "-" ->
    fs_open w path = Raise e ->
    stops_early w (telemetry_first ++ later_imports ++ [EvOpen path])
      (SystemExit 2)
| se_read l args e :
    otel_initialize w = Ok tt ->
    parse_args w = (l, inl args) ->
    snd (read w (ns_prompt args)) = Raise e ->
    stops_early w (telemetry_first ++ later_imports ++ l ++ [EvRead])
      (Uncaught e).

(** An event of the start-up phase: no tool-server or agent call. *)
Definition is_startup (e : event) : bool :=
  match e with
  | EvImport _ | EvInitialize | EvOpen _ | EvRead | EvPrint _ => true
  | _ => false
  end.

(** The tools [main] hands to the agent for the descriptors [ds] listed
    over [server]. *)
Definition adapted (server : MCPServerStreamableHttp) (ds : list MCPTool)
    : list Tool :=
  map (fun d => to_function_tool d server false) ds.

(** What a log of [main] can look like. *)
Inductive main_log (w : World) (prompt : string) (model_name : option string)
    : option string -> list event -> outcome unit -> Prop :=
| ml_no_url mcp_url l r :
    truthy mcp_url = false ->
    run_agent_log w prompt model_name [] l r ->
    main_log w prompt model_name mcp_url l r
| ml_connect_raises u e :
    u <> "" ->
    mcp_connect w (mcp_server u) = Raise e ->
    main_log w prompt model_name (Some u) [EvConnect (mcp_server u)] (Raise e)
| ml_list_raises u e :
    u <> "" ->
    mcp_connect w (mcp_server u) = Ok tt ->
    mcp_list_tools w (mcp_server u) = Raise e ->
    main_log w prompt model_name (Some u)
      [EvConnect (mcp_server u); EvListTools (mcp_server u);
       EvCleanup (mcp_server u)]
      (after_exit (Raise e) (mcp_cleanup w (mcp_server u)))
| ml_listed u ds l r :
    u <> "" ->
    mcp_connect w (mcp_server u) = Ok tt ->
    mcp_list_tools w (mcp_server u) = Ok ds ->
    run_agent_log w prompt model_name (adapted (mcp_server u) ds) l r ->
    main_log w prompt model_name (Some u)
      ([EvConnect (mcp_server u); EvListTools (mcp_server u)] ++ l
         ++ [EvCleanup (mcp_server u)])
      (after_exit r (mcp_cleanup w (mcp_server u))).

(** Every run, in one statement: it stops early, or its log is the
    start-up log followed by a log of [main]. *)
Inductive run_log (w : World) : list event -> termination -> Prop :=
| rl_early l t :
    stops_early w l t -> run_log w l t
| rl_main prompt l r :
    reaches_main w prompt ->
    main_log w prompt (resolved_model w) (resolved_mcp_url w) l r ->
    run_log w (startup_log w prompt ++ l) (finish r).

(** An instrumented library comes into play: a tool-server call, a call
    into the agent runtime, or the import of a module other than the
    telemetry one. *)
Definition uses_library (e : event) : bool :=
  match e with
  | EvImport m => negb (String.eqb m "opentelemetry.instrumentation")
  | _ => is_mcp e || is_agent e
  end.

(** Everything [run_agent] needs besides the model name is there: no URL
    is configured, or the connection opens and the tools are listed. *)
Definition tools_available (w : World) : Prop :=
  truthy (resolved_mcp_url w) = false
  \/ exists u ds,
       resolved_mcp_url w = Some u /\ u <> ""
       /\ mcp_connect w (mcp_server u) = Ok tt
       /\ mcp_list_tools w (mcp_server u) = Ok ds.

Definition is_get_model (e : event) : bool :=
  match e with EvGetModel _ _ => true | _ => false end.

(** ** Concrete runs *)

(** A world in which nothing is configured and every library call
    succeeds with an empty answer; the runs below override parts of it. *)
Definition plain_world : World :=
  {| arg_prompt := None; arg_model := None; arg_mcp_url := None;
     getenv := fun _ => None;
     fs_open := fun _ => Ok tt;
     fs_read := fun _ => Ok "";
     stdin_read := Ok "What is the weather?";
     otel_initialize := Ok tt;
     mcp_connect := fun _ => Ok tt;
     mcp_list_tools := fun _ => Ok [];
     mcp_cleanup := fun _ => Ok tt;
     provider_get_model := fun _ name => Ok {| model_id := py_str name |};
     runner_run := fun _ _ _ => Ok {| final_output := "Hi there" |} |}.

(** [main.py hello.txt --model test-model], with [hello.txt] holding
    [Hello] and MCP_URL unset. *)
Definition hello_world : World :=
  {| arg_prompt := Some "hello.txt"; arg_model := Some "test-model";
     arg_mcp_url := None;
     getenv := getenv plain_world;
     fs_open := fs_open plain_world;
     fs_read := fun _ => Ok "Hello";
     stdin_read := stdin_read plain_world;
     otel_initialize := otel_initialize plain_world;
     mcp_connect := mcp_connect plain_world;
     mcp_list_tools := mcp_list_tools plain_world;
     mcp_cleanup := mcp_cleanup plain_world;
     provider_get_model := provider_get_model plain_world;
     runner_run := runner_run plain_world |}.

(** The environment of the header comment of the script. *)
Definition dotenv (key : string) : option string :=
  if String.eqb key "CHAT_MODEL" then Some "qwen3:4b"
  else if String.eqb key "MCP_URL" then Some "http://localhost:1975/mcp"
  else None.

Definition gateway : MCPServerStreamableHttp :=
  mcp_server "http://localhost:1975/mcp".

Definition two_tools : list MCPTool :=
  [{| name := "echo"; description := "Echo the input";
      inputSchema := "{}" |};
   {| name := "sum"; description := "Add two numbers";
      inputSchema := "{}" |}].

(** [main.py --model gpt-5-nano] under that environment, the prompt on
    standard input, the tool server listing two tools. *)
Definition tools_world : World :=
  {| arg_prompt := None; arg_model := Some "gpt-5-nano"; arg_mcp_url := None;
     getenv := dotenv;
     fs_open := fs_open plain_world;
     fs_read := fs_read plain_world;
     stdin_read := stdin_read plain_world;
     otel_initialize := otel_initialize plain_world;
     mcp_connect := mcp_connect plain_world;
     mcp_list_tools := fun _ => Ok two_tools;
     mcp_cleanup := mcp_cleanup plain_world;
     provider_get_model := provider_get_model plain_world;
     runner_run := runner_run plain_world |}.

(** The same, but the task is cancelled during the agent run. *)
Definition cancelled_world : World :=
  {| arg_prompt := None; arg_model := None; arg_mcp_url := None;
     getenv := dotenv;
     fs_open := fs_open plain_world;
     fs_read := fs_read plain_world;
     stdin_read := stdin_read plain_world;
     otel_initialize := otel_initialize plain_world;
     mcp_connect := mcp_connect plain_world;
     mcp_list_tools := fun _ => Ok two_tools;
     mcp_cleanup := mcp_cleanup plain_world;
     provider_get_model := provider_get_model plain_world;
     runner_run := fun _ _ _ => Raise CancelledError |}.

(** The tool server accepts the connection and fails the listing. *)
Definition listing_fails_world : World :=
  {| arg_prompt := None; arg_model := None; arg_mcp_url := None;
     getenv := dotenv;
     fs_open := fs_open plain_world;
     fs_read := fs_read plain_world;
     stdin_read := stdin_read plain_world;
     otel_initialize := otel_initialize plain_world;
     mcp_connect := mcp_connect plain_world;
     mcp_list_tools := fun _ => Raise (Exception "McpError");
     mcp_cleanup := mcp_cleanup plain_world;
     provider_get_model := provider_get_model plain_world;
     runner_run := runner_run plain_world |}.

(** Nobody listens at the URL. *)
Definition unreachable_world : World :=
  {| arg_prompt := None; arg_model := None; arg_mcp_url := None;
     getenv := dotenv;
     fs_open := fs_open plain_world;
     fs_read := fs_read plain_world;
     stdin_read := stdin_read plain_world;
     otel_initialize := otel_initialize plain_world;
     mcp_connect := fun _ => Raise (Exception "ConnectError");
     mcp_list_tools := mcp_list_tools plain_world;
     mcp_cleanup := mcp_cleanup plain_world;
     provider_get_model := provider_get_model plain_world;
     runner_run := runner_run plain_world |}.

(** [main.py missing.txt], the file not being there. *)
Definition missing_file_world : World :=
  {| arg_prompt := Some "missing.txt"; arg_model := None; arg_mcp_url := None;
     getenv := getenv plain_world;
     fs_open := fun _ => Raise (Exception "FileNotFoundError");
     fs_read := fs_read plain_world;
     stdin_read := stdin_read plain_world;
     otel_initialize := otel_initialize plain_world;
     mcp_connect := mcp_connect plain_world;
     mcp_list_tools := mcp_list_tools plain_world;
     mcp_cleanup := mcp_cleanup plain_world;
     provider_get_model := provider_get_model plain_world;
     runner_run := runner_run plain_world |}.

(** ** Further observations *)

Definition is_read (e : event) : bool :=
  match e with EvRead => true | _ => false end.

Definition is_open (e : event) : bool :=
  match e with EvOpen _ => true | _ => false end.

Definition is_list_tools (e : event) : bool :=
  match e with EvListTools _ => true | _ => false end.

(** The three lines lines 81 to 83 print. *)
Definition echo_lines (w : World) (prompt : string) : list string :=
  ["Prompt: " ++ prompt;
   "Using model: " ++ py_str (resolved_model w);
   "Using MCP URL: " ++ py_str (resolved_mcp_url w)]%string.

(** The server object a tool-server event is about. *)
Definition server_of (e : event) : option MCPServerStreamableHttp :=
  match e with
  | EvConnect s | EvListTools s | EvCleanup s => Some s
  | _ => None
  end.


(** Two worlds that agree on everything the script sees before it turns
    to the agent runtime: the prompt source, the resolved URL, telemetry,
    and whether the tool server accepts the connection.  The model name,
    the provider, the runner and the answers of the tool server after the
    connection are free. *)
Definition same_outside_agent (w1 w2 : World) : Prop :=
  arg_prompt w1 = arg_prompt w2
  /\ resolved_mcp_url w1 = resolved_mcp_url w2
  /\ (forall path, fs_open w1 path = fs_open w2 path)
  /\ (forall path, fs_read w1 path = fs_read w2 path)
  /\ stdin_read w1 = stdin_read w2
  /\ otel_initialize w1 = otel_initialize w2
  /\ (forall s, mcp_connect w1 s = mcp_connect w2 s).

(** ** Further concrete runs *)

(** The gateway environment, with [--mcp-url ""] on the command line. *)
Definition empty_flag_world : World :=
  {| arg_prompt := None; arg_model := None; arg_mcp_url := Some "";
     getenv := dotenv;
     fs_open := fs_open plain_world;
     fs_read := fs_read plain_world;
     stdin_read := stdin_read plain_world;
     otel_initialize := otel_initialize plain_world;
     mcp_connect := mcp_connect plain_world;
     mcp_list_tools := mcp_list_tools plain_world;
     mcp_cleanup := mcp_cleanup plain_world;
     provider_get_model := provider_get_model plain_world;
     runner_run := runner_run plain_world |}.

(** The agent run succeeds and the release of the connection fails. *)
Definition release_fails_world : World :=
  {| arg_prompt := None; arg_model := None; arg_mcp_url := None;
     getenv := dotenv;
     fs_open := fs_open plain_world;
     fs_read := fs_read plain_world;
     stdin_read := stdin_read plain_world;
     otel_initialize := otel_initialize plain_world;
     mcp_connect := mcp_connect plain_world;
     mcp_list_tools := fun _ => Ok two_tools;
     mcp_cleanup := fun _ => Raise (Exception "ClosedResourceError");
     provider_get_model := provider_get_model plain_world;
     runner_run := runner_run plain_world |}.

(** No URL, and the model endpoint answers with an error. *)
Definition agent_fails_world : World :=
  {| arg_prompt := None; arg_model := None; arg_mcp_url := None;
     getenv := getenv plain_world;
     fs_open := fs_open plain_world;
     fs_read := fs_read plain_world;
     stdin_read := stdin_read plain_world;
     otel_initialize := otel_initialize plain_world;
     mcp_connect := mcp_connect plain_world;
     mcp_list_tools := mcp_list_tools plain_world;
     mcp_cleanup := mcp_cleanup plain_world;
     provider_get_model := provider_get_model plain_world;
     runner_run := fun _ _ _ => Raise (Exception "APIConnectionError") |}.

(** The provider cannot build a client. *)
Definition no_provider_world : World :=
  {| arg_prompt := None; arg_model := None; arg_mcp_url := None;
     getenv := dotenv;
     fs_open := fs_open plain_world;
     fs_read := fs_read plain_world;
     stdin_read := stdin_read plain_world;
     otel_initialize := otel_initialize plain_world;
     mcp_connect := mcp_connect plain_world;
     mcp_list_tools := mcp_list_tools plain_world;
     mcp_cleanup := mcp_cleanup plain_world;
     provider_get_model := fun _ _ => Raise (Exception "OpenAIError");
     runner_run := runner_run plain_world |}.

(** ** Proof steps *)

Ltac unfold_script :=
  unfold run_agent, aenter, aexit, list_tools, async_with, print, call,
    bind, ret in *.

(** Finds an event in a concrete log. *)
Ltac find_event := repeat first [left; reflexivity | right].

(** * Properties

    ** The parts of the script, one by one *)

(** [run_agent] stops at the first call that raises. *)
Lemma run_agent_get_model_raises w prompt model_name tools e :
  provider_get_model w false model_name = Raise e ->
  run_agent w prompt model_name tools
  = ([EvGetModel false model_name], Raise e).
Proof. intros H. unfold_script. rewrite H. reflexivity. Qed.

Lemma run_agent_runner_raises w prompt model_name tools model e :
  provider_get_model w false model_name = Ok model ->
  runner_run w (assistant model tools) prompt gateway_run = Raise e ->
  run_agent w prompt model_name tools
  = ([EvGetModel false model_name;
      EvRunnerRun (assistant model tools) prompt gateway_run], Raise e).
Proof.
  intros H H'. unfold assistant, gateway_run in *. unfold_script.
  rewrite H, H'. reflexivity.
Qed.

Lemma run_agent_returns w prompt model_name tools model result :
  provider_get_model w false model_name = Ok model ->
  runner_run w (assistant model tools) prompt gateway_run = Ok result ->
  run_agent w prompt model_name tools
  = ([EvGetModel false model_name;
      EvRunnerRun (assistant model tools) prompt gateway_run;
      EvPrint (final_output result)], Ok tt).
Proof.
  intros H H'. unfold assistant, gateway_run in *. unfold_script.
  rewrite H, H'. reflexivity.
Qed.

Lemma run_agent_inv w prompt model_name tools :
  run_agent_log w prompt model_name tools
    (fst (run_agent w prompt model_name tools))
    (snd (run_agent w prompt model_name tools)).
Proof.
  destruct (provider_get_model w false model_name) as [model|e] eqn:Hm.
  - destruct (runner_run w (assistant model tools) prompt gateway_run)
      as [r|e] eqn:Hr.
    + rewrite (run_agent_returns _ _ _ _ _ _ Hm Hr). now apply ral_done.
    + rewrite (run_agent_runner_raises _ _ _ _ _ _ Hm Hr).
      now apply ral_run_fails.
  - rewrite (run_agent_get_model_raises _ _ _ _ _ Hm). now apply ral_no_model.
Qed.

(** The two branches of [main]. *)
Lemma main_without_url w prompt model_name mcp_url :
  truthy mcp_url = false ->
  main w prompt model_name mcp_url = run_agent w prompt model_name [].
Proof. intros H. unfold main. rewrite H. reflexivity. Qed.

Lemma truthy_Some mcp_url :
  truthy mcp_url = true <-> exists u, mcp_url = Some u /\ u <> "".
Proof.
  destruct mcp_url as [u|]; simpl.
  - rewrite negb_true_iff. split.
    + intros H. exists u. split; [reflexivity|].
      intros ->. discriminate.
    + intros (u' & [= <-] & Hne). apply String.eqb_neq. exact Hne.
  - split; [discriminate|]. intros (u & H & _). discriminate.
Qed.

Lemma main_with_url w prompt model_name u :
  u <> "" ->
  main w prompt model_name (Some u)
  = async_with (aenter w (mcp_server u)) (aexit w) (fun server =>
      tools <- list_tools w server ;;
      run_agent w prompt model_name
        (map (fun tool => to_function_tool tool server false) tools)).
Proof.
  intros H. unfold main.
  assert (Ht : truthy (Some u) = true) by (apply truthy_Some; eauto).
  rewrite Ht. reflexivity.
Qed.

(** With a URL: the connection fails, the listing fails, or the agent is
    run with the adapted tools; after a successful connection the log
    always ends with the release. *)
Lemma main_connect_raises w prompt model_name u e :
  u <> "" ->
  mcp_connect w (mcp_server u) = Raise e ->
  main w prompt model_name (Some u) = ([EvConnect (mcp_server u)], Raise e).
Proof.
  intros Hu H. rewrite main_with_url by exact Hu.
  unfold_script. rewrite H. reflexivity.
Qed.

Lemma main_list_raises w prompt model_name u e :
  u <> "" ->
  mcp_connect w (mcp_server u) = Ok tt ->
  mcp_list_tools w (mcp_server u) = Raise e ->
  main w prompt model_name (Some u)
  = ([EvConnect (mcp_server u); EvListTools (mcp_server u);
      EvCleanup (mcp_server u)],
     after_exit (Raise e) (mcp_cleanup w (mcp_server u))).
Proof.
  intros Hu Hc Hl. rewrite main_with_url by exact Hu.
  unfold_script. rewrite Hc, Hl. simpl. reflexivity.
Qed.

Lemma main_listed w prompt model_name u ds :
  u <> "" ->
  mcp_connect w (mcp_server u) = Ok tt ->
  mcp_list_tools w (mcp_server u) = Ok ds ->
  let tools := map (fun d => to_function_tool d (mcp_server u) false) ds in
  main w prompt model_name (Some u)
  = ([EvConnect (mcp_server u); EvListTools (mcp_server u)]
       ++ fst (run_agent w prompt model_name tools)
       ++ [EvCleanup (mcp_server u)],
     after_exit (snd (run_agent w prompt model_name tools))
       (mcp_cleanup w (mcp_server u))).
Proof.
  intros Hu Hc Hl tools. rewrite main_with_url by exact Hu.
  unfold async_with, aenter, list_tools, aexit, call, bind, ret.
  rewrite Hc, Hl. simpl. fold tools.
  destruct (run_agent w prompt model_name tools) as [l r]. reflexivity.
Qed.

(** ** From process start to [main] *)

Lemma prelude_ok w :
  otel_initialize w = Ok tt ->
  prelude w = (telemetry_first ++ later_imports, Ok tt).
Proof. intros H. unfold prelude, call, bind. rewrite H. reflexivity. Qed.

Lemma prelude_raises w e :
  otel_initialize w = Raise e ->
  prelude w = (telemetry_first, Raise e).
Proof. intros H. unfold prelude, call, bind. rewrite H. reflexivity. Qed.

Lemma parse_args_namespace w l args :
  parse_args w = (l, inl args) ->
  ns_model args = resolved_model w /\ ns_mcp_url args = resolved_mcp_url w.
Proof.
  unfold parse_args, resolved_model, resolved_mcp_url.
  destruct (arg_prompt w) as [path|].
  - destruct (String.eqb path "-").
    + intros [= _ <-]. split; reflexivity.
    + destruct (fs_open w path); [|discriminate].
      intros [= _ <-]. split; reflexivity.
  - intros [= _ <-]. split; reflexivity.
Qed.

Lemma parse_args_log w :
  Forall (fun e => is_startup e = true /\ is_initialize e = false)
    (fst (parse_args w)).
Proof.
  unfold parse_args. destruct (arg_prompt w) as [path|]; simpl; auto.
  destruct (String.eqb path "-"); simpl; auto.
  destruct (fs_open w path); simpl; auto.
Qed.

Lemma read_log w s : fst (read w s) = [EvRead].
Proof. destruct s; reflexivity. Qed.

Lemma script_reaches_main w prompt :
  reaches_main w prompt ->
  let m := main w prompt (resolved_model w) (resolved_mcp_url w) in
  script w = (startup_log w prompt ++ fst m, finish (snd m)).
Proof.
  intros (Hi & l & args & Hp & Hr) m.
  unfold script, startup_log, after_telemetry.
  rewrite (prelude_ok _ Hi), Hp.
  destruct (parse_args_namespace _ _ _ Hp) as [Hm Hu].
  unfold main_block, print, call, bind.
  pose proof (read_log w (ns_prompt args)) as Hl.
  destruct (read w (ns_prompt args)) as [lr rr]. simpl in Hr, Hl. subst.
  rewrite Hm, Hu. fold m. destruct m as [lm rm]. simpl.
  rewrite <- !app_assoc. reflexivity.
Qed.

Lemma script_inv w :
  (exists l t, stops_early w l t /\ script w = (l, t))
  \/ (exists prompt, reaches_main w prompt).
Proof.
  destruct (otel_initialize w) as [[]|e] eqn:Hi.
  2:{ left. exists telemetry_first, (Uncaught e). split.
      - apply se_initialize. exact Hi.
      - unfold script. rewrite (prelude_raises _ _ Hi). reflexivity. }
  destruct (parse_args w) as [l [args|code]] eqn:Hp.
  - destruct (read w (ns_prompt args)) as [lr [prompt|e]] eqn:Hr.
    + right. exists prompt. split; [exact Hi|].
      exists l, args. rewrite Hr. auto.
    + left. exists (telemetry_first ++ later_imports ++ l ++ [EvRead]),
        (Uncaught e). split.
      * apply se_read with (args := args); auto. rewrite Hr. reflexivity.
      * unfold script. rewrite (prelude_ok _ Hi), Hp.
        unfold main_block, bind.
        pose proof (read_log w (ns_prompt args)) as Hl.
        rewrite Hr in *. simpl in Hl. subst lr.
        simpl. reflexivity.
  - left. unfold parse_args in Hp.
    destruct (arg_prompt w) as [path|] eqn:Ha; [|discriminate].
    destruct (String.eqb path "-") eqn:Hd; [discriminate|].
    destruct (fs_open w path) as [|e] eqn:Ho; [discriminate|].
    injection Hp as <- <-.
    exists (telemetry_first ++ later_imports ++ [EvOpen path]), (SystemExit 2).
    split.
    + apply se_open with (e := e); auto. apply String.eqb_neq. exact Hd.
    + unfold script. rewrite (prelude_ok _ Hi). unfold parse_args.
      rewrite Ha, Hd, Ho. simpl. reflexivity.
Qed.

Lemma stops_early_log w l t :
  stops_early w l t ->
  Forall (fun e => is_startup e = true) l /\ t <> Returned
  /\ exists rest, l = telemetry_first ++ rest /\ count is_initialize rest = 0.
Proof.
  intros H. destruct H as [e Hi | path e Hi Ha Hd Ho | l args e Hi Hp Hr].
  - split; [repeat constructor|]. split; [discriminate|].
    exists []. split; reflexivity.
  - split; [repeat constructor|]. split; [discriminate|].
    eexists. split; reflexivity.
  - pose proof (parse_args_log w) as Hl. rewrite Hp in Hl. simpl in Hl.
    split.
    + repeat (apply Forall_cons; [reflexivity|]).
      apply Forall_app. split; [|repeat constructor].
      eapply Forall_impl; [|exact Hl]. simpl. tauto.
    + split; [discriminate|]. eexists. split; [reflexivity|].
      unfold count. simpl. rewrite filter_app. simpl. rewrite app_nil_r.
      rewrite (proj2 (List.length_zero_iff_nil _)); [reflexivity|].
      clear -Hl. induction Hl as [|x l' [_ Hx] _ IH]; simpl; auto.
      rewrite Hx. exact IH.
Qed.

Lemma main_inv w prompt model_name mcp_url :
  main_log w prompt model_name mcp_url
    (fst (main w prompt model_name mcp_url))
    (snd (main w prompt model_name mcp_url)).
Proof.
  destruct (truthy mcp_url) eqn:Ht.
  - apply truthy_Some in Ht. destruct Ht as (u & -> & Hu).
    destruct (mcp_connect w (mcp_server u)) as [[]|e] eqn:Hc.
    + destruct (mcp_list_tools w (mcp_server u)) as [ds|e] eqn:Hl.
      * rewrite (main_listed _ _ _ _ _ Hu Hc Hl). simpl.
        apply ml_listed with (ds := ds); auto. apply run_agent_inv.
      * rewrite (main_list_raises _ _ _ _ _ Hu Hc Hl). now apply ml_list_raises.
    + rewrite (main_connect_raises _ _ _ _ _ Hu Hc). now apply ml_connect_raises.
  - rewrite (main_without_url _ _ _ _ Ht). apply ml_no_url; auto.
    apply run_agent_inv.
Qed.

(** ** Counting over logs *)

Lemma count_app p l1 l2 : count p (l1 ++ l2) = count p l1 + count p l2.
Proof. unfold count. rewrite filter_app, length_app. reflexivity. Qed.

Lemma count_none p l :
  Forall (fun e => p e = false) l -> count p l = 0.
Proof.
  unfold count. induction 1 as [|e l He _ IH]; simpl; [reflexivity|].
  rewrite He. exact IH.
Qed.

Lemma after_telemetry_events w prompt :
  Forall (fun e => is_startup e = true /\ is_initialize e = false)
    (after_telemetry w prompt).
Proof.
  unfold after_telemetry, later_imports.
  repeat (apply Forall_cons; [split; reflexivity|]).
  apply Forall_app. split; [apply parse_args_log|].
  repeat (apply Forall_cons; [split; reflexivity|]). constructor.
Qed.

Lemma startup_log_startup w prompt :
  Forall (fun e => is_startup e = true) (startup_log w prompt).
Proof.
  unfold startup_log. apply Forall_app. split; [repeat constructor|].
  eapply Forall_impl; [|apply after_telemetry_events]. simpl. tauto.
Qed.

Lemma startup_count p l :
  (forall e, is_startup e = true -> p e = false) ->
  Forall (fun e => is_startup e = true) l -> count p l = 0.
Proof.
  intros Hp Hl. apply count_none. eapply Forall_impl; [|exact Hl]. exact Hp.
Qed.

Lemma startup_not_mcp e : is_startup e = true -> is_mcp e = false.
Proof. destruct e; simpl; congruence. Qed.
Lemma startup_not_agent e : is_startup e = true -> is_agent e = false.
Proof. destruct e; simpl; congruence. Qed.
Lemma startup_not_connect e : is_startup e = true -> is_connect e = false.
Proof. destruct e; simpl; congruence. Qed.
Lemma startup_not_cleanup e : is_startup e = true -> is_cleanup e = false.
Proof. destruct e; simpl; congruence. Qed.
Lemma startup_not_runner_run e :
  is_startup e = true -> is_runner_run e = false.
Proof. destruct e; simpl; congruence. Qed.

Lemma run_inv w : run_log w (trace w) (ending w).
Proof.
  unfold trace, ending.
  destruct (script_inv w) as [(l & t & He & Hs)|(prompt & Hr)].
  - rewrite Hs. now apply rl_early.
  - rewrite (script_reaches_main _ _ Hr). simpl.
    apply rl_main; [exact Hr|apply main_inv].
Qed.

Lemma reaches_main_unique w p1 p2 :
  reaches_main w p1 -> reaches_main w p2 -> p1 = p2.
Proof.
  intros (_ & l1 & a1 & H1 & R1) (_ & l2 & a2 & H2 & R2).
  rewrite H1 in H2. injection H2 as _ <-. congruence.
Qed.

Lemma stops_early_not_reached w l t prompt :
  stops_early w l t -> reaches_main w prompt -> False.
Proof.
  intros He (Hi & l' & args & Hp & Hr).
  destruct He as [e Hi' | path e _ Ha Hd Ho | l0 args0 e _ Hp0 Hr0].
  - congruence.
  - unfold parse_args in Hp. rewrite Ha, Ho in Hp.
    apply String.eqb_neq in Hd. rewrite Hd in Hp. discriminate.
  - rewrite Hp in Hp0. injection Hp0 as _ <-. congruence.
Qed.

(** ** Telemetry and configuration *)

Lemma run_agent_log_events w prompt model_name tools l r :
  run_agent_log w prompt model_name tools l r ->
  Forall (fun e => is_initialize e = false /\ is_mcp e = false) l.
Proof. destruct 1; repeat constructor. Qed.

Lemma main_log_no_initialize w prompt model_name mcp_url l r :
  main_log w prompt model_name mcp_url l r ->
  Forall (fun e => is_initialize e = false) l.
Proof.
  intros H.
  assert (Hra : forall tools l r,
             run_agent_log w prompt model_name tools l r ->
             Forall (fun e => is_initialize e = false) l).
  { intros tools l0 r0 H0. eapply Forall_impl;
      [|eapply run_agent_log_events; exact H0]. simpl. tauto. }
  destruct H as [u l r _ Hl | | | u ds l r _ _ _ Hl].
  - eapply Hra; eauto.
  - repeat constructor.
  - repeat constructor.
  - repeat (apply Forall_cons; [reflexivity|]).
    apply Forall_app. split; [eapply Hra; eauto|repeat constructor].
Qed.

(** C5: in every run the telemetry initialisation is called exactly once
    (so at most once), as the second event of the log, right after the
    import of the telemetry module: every model call, every tool-server
    call and every other import comes strictly after it. *)
Theorem telemetry_initialized_once_and_first (w : World) :
  (exists rest,
     trace w = EvImport "opentelemetry.instrumentation" :: EvInitialize :: rest
     /\ Forall (fun e => is_initialize e = false) rest)
  /\ count is_initialize (trace w) = 1
  /\ (forall pre e post,
        trace w = pre ++ e :: post -> uses_library e = true ->
        In EvInitialize pre).
Proof.
  assert (Hshape : exists rest,
     trace w = EvImport "opentelemetry.instrumentation" :: EvInitialize :: rest
     /\ Forall (fun e => is_initialize e = false) rest).
  { destruct (run_inv w) as [l t He | prompt l r Hr Hm].
    - destruct (stops_early_log _ _ _ He) as (Hs & _ & rest & -> & Hc).
      exists rest. split; [reflexivity|].
      clear -Hc. unfold count in Hc. apply length_zero_iff_nil in Hc.
      induction rest as [|x rest IH]; constructor; simpl in Hc;
        destruct (is_initialize x); try discriminate; auto.
    - exists (after_telemetry w prompt ++ l). split; [reflexivity|].
      apply Forall_app. split.
      + eapply Forall_impl; [|apply after_telemetry_events]. simpl. tauto.
      + eapply main_log_no_initialize; eauto. }
  split; [exact Hshape|].
  destruct Hshape as (rest & Ht & Hrest). split.
  - rewrite Ht. unfold count. simpl. fold (count is_initialize rest).
    rewrite (count_none _ _ Hrest). reflexivity.
  - intros pre e post Hsplit He. rewrite Ht in Hsplit.
    destruct pre as [|e1 [|e2 pre]]; simpl in Hsplit.
    + injection Hsplit as <- _. discriminate.
    + injection Hsplit as _ <- _. discriminate.
    + injection Hsplit as _ <- _. simpl. auto.
Qed.

(** C6: the namespace the parser returns holds, as model name, the value
    of [--model] when the flag is given, else the value of the environment
    variable CHAT_MODEL, else nothing ([None]); and as tool-server URL the
    value of [--mcp-url] when the flag is given, else the value of MCP_URL,
    else nothing. *)
Theorem configuration_precedence (w : World) l (args : Namespace) :
  parse_args w = (l, inl args) ->
  ns_model args =
    match arg_model w with
    | Some flag => Some flag
    | None =>
        match getenv w "CHAT_MODEL" with
        | Some var => Some var
        | None => None
        end
    end
  /\ ns_mcp_url args =
    match arg_mcp_url w with
    | Some flag => Some flag
    | None =>
        match getenv w "MCP_URL" with
        | Some var => Some var
        | None => None
        end
    end.
Proof.
  intros H. destruct (parse_args_namespace _ _ _ H) as [-> ->].
  unfold resolved_model, resolved_mcp_url, store.
  destruct (arg_model w), (arg_mcp_url w),
    (getenv w "CHAT_MODEL"), (getenv w "MCP_URL"); split; reflexivity.
Qed.

(** ** The tool-server connection *)

Lemma in_after_startup pre l e :
  Forall (fun e => is_startup e = true) pre ->
  is_startup e = false -> In e (pre ++ l) -> In e l.
Proof.
  intros Hpre He Hin. apply in_app_or in Hin. destruct Hin as [Hin|Hin]; auto.
  rewrite Forall_forall in Hpre. apply Hpre in Hin. congruence.
Qed.

Lemma run_agent_log_not_mcp w prompt model_name tools l r e :
  run_agent_log w prompt model_name tools l r -> In e l -> is_mcp e = false.
Proof.
  intros H Hin. apply run_agent_log_events in H.
  rewrite Forall_forall in H. apply (H e Hin).
Qed.

Lemma trace_reaches_main w prompt :
  reaches_main w prompt ->
  trace w
  = startup_log w prompt
      ++ fst (main w prompt (resolved_model w) (resolved_mcp_url w)).
Proof.
  intros Hr. unfold trace. rewrite (script_reaches_main _ _ Hr). reflexivity.
Qed.

Lemma ending_reaches_main w prompt :
  reaches_main w prompt ->
  ending w
  = finish (snd (main w prompt (resolved_model w) (resolved_mcp_url w))).
Proof.
  intros Hr. unfold ending. rewrite (script_reaches_main _ _ Hr). reflexivity.
Qed.

(** A connection is attempted only by [main], for a non-empty URL, and on
    the one server object built from it. *)
Lemma connect_attempted w server :
  In (EvConnect server) (trace w) ->
  exists prompt u,
    reaches_main w prompt /\ resolved_mcp_url w = Some u /\ u <> ""
    /\ server = mcp_server u.
Proof.
  intros Hin. destruct (run_inv w) as [l t He | prompt l r Hr Hm].
  - exfalso. destruct (stops_early_log _ _ _ He) as (Hl & _).
    rewrite Forall_forall in Hl. apply Hl in Hin. discriminate.
  - apply in_after_startup in Hin;
      [|apply startup_log_startup|reflexivity].
    exists prompt.
    destruct Hm as [u l r Hu Hl | u e Hu Hc | u e Hu Hc Hl
                   | u ds l r Hu Hc Hl Hra].
    + exfalso. apply (run_agent_log_not_mcp _ _ _ _ _ _ _ Hl) in Hin.
      discriminate.
    + exists u. simpl in Hin. destruct Hin as [[= <-]|[]]. auto.
    + exists u. simpl in Hin. destruct Hin as [[= <-]|[[=]|[[=]|[]]]]. auto.
    + exists u. simpl in Hin. destruct Hin as [[= <-]|[[=]|Hin]]; auto.
      exfalso. apply in_app_or in Hin. destruct Hin as [Hin|[[=]|[]]].
      apply (run_agent_log_not_mcp _ _ _ _ _ _ _ Hra) in Hin. discriminate.
Qed.

Lemma run_agent_count_mcp w prompt model_name tools p :
  (forall e, is_mcp e = false -> p e = false) ->
  count p (fst (run_agent w prompt model_name tools)) = 0.
Proof.
  intros Hp. apply count_none. eapply Forall_impl;
    [|eapply run_agent_log_events, run_agent_inv].
  simpl. intros e [_ He]. auto.
Qed.

Lemma not_mcp_not_cleanup e : is_mcp e = false -> is_cleanup e = false.
Proof. destruct e; simpl; congruence. Qed.
Lemma not_mcp_not_connect e : is_mcp e = false -> is_connect e = false.
Proof. destruct e; simpl; congruence. Qed.

(** C1: in every run in which the connection to the tool server was opened
    successfully, the connection is released exactly once, and the release
    is the last thing the run does, however the body of the block ended:
    the agent run returned, the tool listing or the agent run raised an
    exception, or the task was cancelled. *)
Theorem connection_released_exactly_once (w : World)
    (server : MCPServerStreamableHttp) :
  In (EvConnect server) (trace w) ->
  mcp_connect w server = Ok tt ->
  count is_cleanup (trace w) = 1
  /\ exists before,
       trace w = before ++ [EvCleanup server]
       /\ In (EvConnect server) before
       /\ count is_cleanup before = 0.
Proof.
  intros Hin Hok.
  destruct (connect_attempted _ _ Hin) as (prompt & u & Hr & Hu & Hne & ->).
  rewrite (trace_reaches_main _ _ Hr), Hu.
  pose proof (startup_count is_cleanup _ startup_not_cleanup
                (startup_log_startup w prompt)) as Hs.
  destruct (mcp_list_tools w (mcp_server u)) as [ds|e] eqn:Hl.
  - rewrite (main_listed _ _ _ _ _ Hne Hok Hl). cbn [fst].
    set (la := fst (run_agent w prompt (resolved_model w) _)).
    assert (Hla : count is_cleanup la = 0)
      by (apply run_agent_count_mcp, not_mcp_not_cleanup).
    split.
    + rewrite !count_app, Hs, Hla. reflexivity.
    + exists (startup_log w prompt
                ++ [EvConnect (mcp_server u); EvListTools (mcp_server u)]
                ++ la).
      split; [rewrite <- !app_assoc; reflexivity|]. split.
      * apply in_or_app. right. left. reflexivity.
      * rewrite !count_app, Hs, Hla. reflexivity.
  - rewrite (main_list_raises _ _ _ _ _ Hne Hok Hl). cbn [fst]. split.
    + rewrite count_app, Hs. reflexivity.
    + exists (startup_log w prompt
                ++ [EvConnect (mcp_server u); EvListTools (mcp_server u)]).
      split; [rewrite <- app_assoc; reflexivity|]. split.
      * apply in_or_app. right. left. reflexivity.
      * rewrite count_app, Hs. reflexivity.
Qed.

(** C9: when the tool listing raises after the connection was opened, no
    call into the agent runtime is made, the connection is still released
    (the release is the last event, right after the failed listing), and
    the process ends with an uncaught exception: the one of the listing
    when the release itself succeeds. *)
Theorem listing_failure_skips_agent_and_releases (w : World)
    (server : MCPServerStreamableHttp) (e : exn) :
  In (EvConnect server) (trace w) ->
  mcp_connect w server = Ok tt ->
  mcp_list_tools w server = Raise e ->
  count is_agent (trace w) = 0
  /\ (exists before,
        trace w = before ++ [EvConnect server; EvListTools server;
                             EvCleanup server])
  /\ (exists e', ending w = Uncaught e')
  /\ (mcp_cleanup w server = Ok tt -> ending w = Uncaught e).
Proof.
  intros Hin Hok Hl.
  destruct (connect_attempted _ _ Hin) as (prompt & u & Hr & Hu & Hne & ->).
  rewrite (trace_reaches_main _ _ Hr), (ending_reaches_main _ _ Hr), Hu.
  rewrite (main_list_raises _ _ _ _ _ Hne Hok Hl). cbn [fst snd].
  split; [|split; [|split]].
  - rewrite count_app.
    rewrite (startup_count is_agent _ startup_not_agent
               (startup_log_startup w prompt)). reflexivity.
  - exists (startup_log w prompt). reflexivity.
  - destruct (mcp_cleanup w (mcp_server u)) as [[]|e']; simpl; eauto.
  - intros ->. reflexivity.
Qed.

Lemma stops_early_status w l t :
  stops_early w l t -> exit_status t <> 0%Z.
Proof. destruct 1; simpl; discriminate. Qed.

Lemma early_count w l t p :
  stops_early w l t ->
  (forall e, is_startup e = true -> p e = false) -> count p l = 0.
Proof.
  intros He Hp. apply startup_count; [exact Hp|].
  apply (stops_early_log _ _ _ He).
Qed.

(** C4: with a non-empty tool-server URL on which opening the connection
    fails, the process ends with a non-zero status and no call into the
    agent runtime is ever made; when the run gets as far as [main], the
    failed attempt is its last event (no retry, nothing to release) and the
    exception of the attempt is the one that ends the process. *)
Theorem connection_failure_is_fatal (w : World) (u : string) (e : exn) :
  resolved_mcp_url w = Some u -> u <> "" ->
  mcp_connect w (mcp_server u) = Raise e ->
  exit_status (ending w) <> 0%Z
  /\ count is_agent (trace w) = 0
  /\ (forall prompt, reaches_main w prompt ->
       ending w = Uncaught e
       /\ trace w = startup_log w prompt ++ [EvConnect (mcp_server u)]).
Proof.
  intros Hu Hne Hc.
  destruct (script_inv w) as [(l & t & He & Hs)|(prompt & Hr)].
  - unfold trace, ending. rewrite Hs. cbn [fst snd].
    split; [eapply stops_early_status; eauto|].
    split; [eapply early_count; eauto using startup_not_agent|].
    intros prompt Hr. exfalso. eapply stops_early_not_reached; eauto.
  - assert (Ht : trace w = startup_log w prompt ++ [EvConnect (mcp_server u)]).
    { rewrite (trace_reaches_main _ _ Hr), Hu.
      rewrite (main_connect_raises _ _ _ _ _ Hne Hc). reflexivity. }
    assert (Hend : ending w = Uncaught e).
    { rewrite (ending_reaches_main _ _ Hr), Hu.
      rewrite (main_connect_raises _ _ _ _ _ Hne Hc). reflexivity. }
    split; [rewrite Hend; discriminate|]. split.
    + rewrite Ht, count_app.
      rewrite (startup_count is_agent _ startup_not_agent
                 (startup_log_startup w prompt)). reflexivity.
    + intros prompt' Hr'.
      rewrite (reaches_main_unique _ _ _ Hr' Hr). auto.
Qed.

(** ** The tool set of the agent run *)

Lemma adapted_length server ds : length (adapted server ds) = length ds.
Proof. apply length_map. Qed.

Lemma adapted_descriptors server ds : map mcp_tool (adapted server ds) = ds.
Proof.
  unfold adapted. rewrite map_map. simpl. apply map_id.
Qed.

Lemma adapted_bound server ds :
  Forall (fun t => tool_server t = server
                   /\ convert_schemas_to_strict t = false)
    (adapted server ds).
Proof.
  unfold adapted. induction ds as [|d ds IH]; simpl; constructor; auto.
Qed.

(** The runner is called by [run_agent] only, with the tools it was
    given and the model the provider returned. *)
Lemma run_agent_runner_run w prompt model_name tools a i c :
  In (EvRunnerRun a i c) (fst (run_agent w prompt model_name tools)) ->
  provider_get_model w false model_name = Ok (agent_model a)
  /\ a = assistant (agent_model a) tools /\ i = prompt /\ c = gateway_run.
Proof.
  intros Hin.
  destruct (run_agent_inv w prompt model_name tools) as [e Hm|m e Hm Hr|m r Hm Hr];
    simpl in Hin.
  - destruct Hin as [[=]|[]].
  - destruct Hin as [[=]|[[= <- <- <-]|[]]]. auto.
  - destruct Hin as [[=]|[[= <- <- <-]|[[=]|[]]]]. auto.
Qed.

Lemma run_agent_get_model w prompt model_name tools b m :
  In (EvGetModel b m) (fst (run_agent w prompt model_name tools)) ->
  b = false /\ m = model_name.
Proof.
  intros Hin.
  destruct (run_agent_inv w prompt model_name tools) as [e Hm|m' e Hm Hr|m' r Hm Hr];
    simpl in Hin.
  - destruct Hin as [[= <- <-]|[]]. auto.
  - destruct Hin as [[= <- <-]|[[=]|[]]]. auto.
  - destruct Hin as [[= <- <-]|[[=]|[[=]|[]]]]. auto.
Qed.

(** Where a call into the agent runtime sits in the log of a run: in the
    [run_agent] part of [main], of which there is one. *)
Lemma agent_event_origin w e :
  In e (trace w) -> is_agent e = true ->
  exists prompt tools,
    reaches_main w prompt
    /\ In e (fst (run_agent w prompt (resolved_model w) tools))
    /\ ((truthy (resolved_mcp_url w) = false /\ tools = [])
        \/ exists u ds,
             resolved_mcp_url w = Some u /\ u <> ""
             /\ mcp_connect w (mcp_server u) = Ok tt
             /\ mcp_list_tools w (mcp_server u) = Ok ds
             /\ tools = adapted (mcp_server u) ds).
Proof.
  intros Hin He.
  destruct (script_inv w) as [(l & t & Hse & Hs)|(prompt & Hr)].
  - exfalso. unfold trace in Hin. rewrite Hs in Hin. cbn [fst] in Hin.
    destruct (stops_early_log _ _ _ Hse) as (Hl & _).
    rewrite Forall_forall in Hl. apply Hl, startup_not_agent in Hin.
    congruence.
  - rewrite (trace_reaches_main _ _ Hr) in Hin.
    apply in_after_startup in Hin; [|apply startup_log_startup|].
    2:{ destruct e; try discriminate; reflexivity. }
    exists prompt.
    destruct (truthy (resolved_mcp_url w)) eqn:Ht.
    + apply truthy_Some in Ht. destruct Ht as (u & Hu & Hne).
      rewrite Hu in Hin.
      destruct (mcp_connect w (mcp_server u)) as [[]|ec] eqn:Hc.
      * destruct (mcp_list_tools w (mcp_server u)) as [ds|el] eqn:Hl.
        -- exists (adapted (mcp_server u) ds).
           rewrite (main_listed _ _ _ _ _ Hne Hc Hl) in Hin. cbn [fst] in Hin.
           split; [exact Hr|]. split.
           ++ simpl in Hin. destruct Hin as [<-|[<-|Hin]]; try discriminate.
              apply in_app_or in Hin. destruct Hin as [Hin|[<-|[]]];
                [exact Hin|discriminate].
           ++ right. exists u, ds. auto.
        -- exfalso. rewrite (main_list_raises _ _ _ _ _ Hne Hc Hl) in Hin.
           simpl in Hin.
           destruct Hin as [<-|[<-|[<-|[]]]]; discriminate.
      * exfalso. rewrite (main_connect_raises _ _ _ _ _ Hne Hc) in Hin.
        simpl in Hin. destruct Hin as [<-|[]]. discriminate.
    + exists []. rewrite (main_without_url _ _ _ _ Ht) in Hin. auto.
Qed.

(** C3: when the resolved tool-server URL is absent ([None]) or empty, no
    call to the tool server is made at all, so no connection is attempted;
    every agent run has the empty tool set; and a run that gets to [main]
    and obtains a model from the provider runs the agent exactly once,
    with no tools. *)
Theorem no_url_runs_agent_without_tools (w : World) :
  truthy (resolved_mcp_url w) = false ->
  count is_mcp (trace w) = 0
  /\ count is_connect (trace w) = 0
  /\ (forall a i c, In (EvRunnerRun a i c) (trace w) -> agent_tools a = [])
  /\ (forall prompt model,
        reaches_main w prompt ->
        provider_get_model w false (resolved_model w) = Ok model ->
        In (EvRunnerRun (assistant model []) prompt gateway_run) (trace w)
        /\ count is_runner_run (trace w) = 1).
Proof.
  intros Ht.
  assert (Hmcp : forall p, (forall e, is_mcp e = false -> p e = false) ->
                           (forall e, is_startup e = true -> p e = false) ->
                           count p (trace w) = 0).
  { intros p Hp Hs.
    destruct (script_inv w) as [(l & t & He & Hsc)|(prompt & Hr)].
    - unfold trace. rewrite Hsc. eapply early_count; eauto.
    - rewrite (trace_reaches_main _ _ Hr), (main_without_url _ _ _ _ Ht).
      rewrite count_app, (startup_count p _ Hs (startup_log_startup w prompt)).
      rewrite run_agent_count_mcp by exact Hp. reflexivity. }
  split; [apply Hmcp; auto using startup_not_mcp|].
  split; [apply Hmcp; auto using startup_not_connect, not_mcp_not_connect|].
  split.
  - intros a i c Hin.
    destruct (agent_event_origin _ _ Hin eq_refl)
      as (prompt & tools & _ & Hra & [[_ ->]|(u & ds & Hu & Hne & _)]).
    + apply run_agent_runner_run in Hra. destruct Hra as (_ & -> & _).
      reflexivity.
    + exfalso. assert (truthy (resolved_mcp_url w) = true)
        by (apply truthy_Some; eauto). congruence.
  - intros prompt model Hr Hm.
    rewrite (trace_reaches_main _ _ Hr), (main_without_url _ _ _ _ Ht).
    rewrite count_app, (startup_count is_runner_run _ startup_not_runner_run
                          (startup_log_startup w prompt)).
    destruct (runner_run w (assistant model []) prompt gateway_run)
      as [r|e] eqn:Hrun.
    + rewrite (run_agent_returns _ _ _ _ _ _ Hm Hrun). split; [|reflexivity].
      apply in_or_app. right. simpl. auto.
    + rewrite (run_agent_runner_raises _ _ _ _ _ _ Hm Hrun).
      split; [|reflexivity]. apply in_or_app. right. simpl. auto.
Qed.

(** C2: with a non-empty tool-server URL whose server lists the tool
    descriptors [ds], every agent run of the process has exactly the
    adapted tools, one per descriptor and in the order listed, each bound
    to the one connection of the run and in non-strict schema mode; and a
    run that gets to [main], connects and obtains a model from the provider
    runs the agent exactly once with these tools, over a single
    connection. *)
Theorem listed_tools_are_adapted_for_the_agent (w : World) (u : string)
    (ds : list MCPTool) :
  resolved_mcp_url w = Some u -> u <> "" ->
  mcp_list_tools w (mcp_server u) = Ok ds ->
  (forall a i c,
     In (EvRunnerRun a i c) (trace w) ->
     length (agent_tools a) = length ds
     /\ map mcp_tool (agent_tools a) = ds
     /\ Forall (fun t => tool_server t = mcp_server u
                         /\ convert_schemas_to_strict t = false)
          (agent_tools a)
     /\ In (EvConnect (mcp_server u)) (trace w))
  /\ (forall prompt model,
        reaches_main w prompt ->
        mcp_connect w (mcp_server u) = Ok tt ->
        provider_get_model w false (resolved_model w) = Ok model ->
        In (EvRunnerRun (assistant model (adapted (mcp_server u) ds)) prompt
              gateway_run) (trace w)
        /\ count is_runner_run (trace w) = 1
        /\ count is_connect (trace w) = 1).
Proof.
  intros Hu Hne Hl. split.
  - intros a i c Hin.
    destruct (agent_event_origin _ _ Hin eq_refl)
      as (prompt & tools & Hr & Hra
          & [[Ht _]|(u' & ds' & Hu' & _ & Hc & Hl' & ->)]).
    + exfalso. assert (truthy (resolved_mcp_url w) = true)
        by (apply truthy_Some; eauto). congruence.
    + rewrite Hu in Hu'. injection Hu' as <-.
      rewrite Hl in Hl'. injection Hl' as <-.
      apply run_agent_runner_run in Hra. destruct Hra as (_ & -> & _).
      cbn [agent_tools assistant].
      split; [apply adapted_length|]. split; [apply adapted_descriptors|].
      split; [apply adapted_bound|].
      rewrite (trace_reaches_main _ _ Hr), Hu.
      rewrite (main_listed _ _ _ _ _ Hne Hc Hl).
      apply in_or_app. right. left. reflexivity.
  - intros prompt model Hr Hc Hm.
    rewrite (trace_reaches_main _ _ Hr), Hu.
    rewrite (main_listed _ _ _ _ _ Hne Hc Hl). cbn [fst].
    fold (adapted (mcp_server u) ds).
    rewrite !count_app.
    rewrite (startup_count is_runner_run _ startup_not_runner_run
               (startup_log_startup w prompt)).
    rewrite (startup_count is_connect _ startup_not_connect
               (startup_log_startup w prompt)).
    rewrite (run_agent_count_mcp _ _ _ _ is_connect not_mcp_not_connect).
    destruct (runner_run w (assistant model (adapted (mcp_server u) ds))
                prompt gateway_run) as [r|e] eqn:Hrun.
    + rewrite (run_agent_returns _ _ _ _ _ _ Hm Hrun).
      split; [|split; reflexivity].
      apply in_or_app. right. simpl. auto.
    + rewrite (run_agent_runner_raises _ _ _ _ _ _ Hm Hrun).
      split; [|split; reflexivity].
      apply in_or_app. right. simpl. auto.
Qed.

(** ** The model name *)

Lemma main_reaches_run_agent w prompt model_name :
  tools_available w ->
  exists pre tools post,
    fst (main w prompt model_name (resolved_mcp_url w))
    = pre ++ fst (run_agent w prompt model_name tools) ++ post
    /\ Forall (fun e => is_agent e = false) pre
    /\ Forall (fun e => is_agent e = false) post.
Proof.
  intros [Ht|(u & ds & Hu & Hne & Hc & Hl)].
  - exists [], [], []. rewrite (main_without_url _ _ _ _ Ht), app_nil_r.
    simpl. auto.
  - exists [EvConnect (mcp_server u); EvListTools (mcp_server u)],
      (adapted (mcp_server u) ds), [EvCleanup (mcp_server u)].
    rewrite Hu, (main_listed _ _ _ _ _ Hne Hc Hl).
    split; [reflexivity|]. split; repeat constructor.
Qed.

(** C10: the script never inspects the model name.  Whether the run gets
    to the agent runtime depends on the start-up and on the tool server
    only; when it does, the provider is asked exactly once for a model, for
    the resolved name as it is, [None] included (no [--model] and
    CHAT_MODEL unset), and with whatever model the provider returns the
    runner is called on the prompt.  No call to the provider ever carries
    another name. *)
Theorem model_name_is_passed_through (w : World) (prompt : string) :
  reaches_main w prompt ->
  tools_available w ->
  In (EvGetModel false (resolved_model w)) (trace w)
  /\ count is_get_model (trace w) = 1
  /\ (forall b m, In (EvGetModel b m) (trace w) ->
                  b = false /\ m = resolved_model w)
  /\ (arg_model w = None -> getenv w "CHAT_MODEL" = None ->
      In (EvGetModel false None) (trace w))
  /\ (forall model,
        provider_get_model w false (resolved_model w) = Ok model ->
        exists tools,
          In (EvRunnerRun (assistant model tools) prompt gateway_run)
            (trace w)).
Proof.
  intros Hr Ha.
  destruct (main_reaches_run_agent w prompt (resolved_model w) Ha)
    as (pre & tools & post & Hmain & Hpre & Hpost).
  pose proof (trace_reaches_main _ _ Hr) as Ht. rewrite Hmain in Ht.
  assert (Hfirst : exists rest,
             fst (run_agent w prompt (resolved_model w) tools)
             = EvGetModel false (resolved_model w) :: rest
             /\ count is_get_model rest = 0
             /\ (forall model,
                   provider_get_model w false (resolved_model w) = Ok model ->
                   In (EvRunnerRun (assistant model tools) prompt gateway_run)
                     rest)).
  { destruct (run_agent_inv w prompt (resolved_model w) tools)
      as [e Hm|m e Hm Hrun|m r Hm Hrun];
      eexists; (split; [reflexivity|]); (split; [reflexivity|]);
      intros model Hm'; rewrite Hm in Hm'; try discriminate;
      injection Hm' as <-; simpl; auto. }
  destruct Hfirst as (rest & Hra & Hrest & Hrun).
  assert (Hin : In (EvGetModel false (resolved_model w)) (trace w)).
  { rewrite Ht, Hra. apply in_or_app. right. apply in_or_app. right.
    apply in_or_app. left. left. reflexivity. }
  assert (Hquiet : forall l, Forall (fun e => is_agent e = false) l ->
                             count is_get_model l = 0).
  { intros l Hl. apply count_none. eapply Forall_impl; [|exact Hl].
    intros e. destruct e; simpl; congruence. }
  split; [exact Hin|]. split; [|split; [|split]].
  - rewrite Ht, Hra, !count_app.
    rewrite (startup_count is_get_model (startup_log w prompt));
      [|destruct e; simpl; congruence|apply startup_log_startup].
    rewrite (Hquiet _ Hpre), (Hquiet _ Hpost).
    change (EvGetModel false (resolved_model w) :: rest)
      with ([EvGetModel false (resolved_model w)] ++ rest).
    rewrite count_app, Hrest. reflexivity.
  - intros b m Hbm.
    destruct (agent_event_origin _ _ Hbm eq_refl)
      as (prompt' & tools' & _ & Hra' & _).
    apply run_agent_get_model in Hra'. exact Hra'.
  - intros Hflag Henv. unfold resolved_model, store in Hin.
    rewrite Hflag, Henv in Hin. exact Hin.
  - intros model Hm. exists tools. rewrite Ht, Hra.
    apply in_or_app. right. apply in_or_app. right. apply in_or_app. left.
    right. apply Hrun. exact Hm.
Qed.

(** ** What is printed *)

Lemma printed_app l1 l2 : printed (l1 ++ l2) = printed l1 ++ printed l2.
Proof.
  induction l1 as [|e l1 IH]; simpl; [reflexivity|].
  destruct e; simpl; rewrite ?IH; reflexivity.
Qed.

Lemma printed_startup w prompt :
  printed (startup_log w prompt)
  = ["Prompt: " ++ prompt;
     "Using model: " ++ py_str (resolved_model w);
     "Using MCP URL: " ++ py_str (resolved_mcp_url w)]%string.
Proof.
  unfold startup_log, after_telemetry. rewrite !printed_app.
  assert (Hp : printed (fst (parse_args w)) = []).
  { unfold parse_args. destruct (arg_prompt w) as [path|]; [|reflexivity].
    destruct (String.eqb path "-"); [reflexivity|].
    destruct (fs_open w path); reflexivity. }
  rewrite Hp. reflexivity.
Qed.

Lemma reaches_main_from_file w path prompt :
  otel_initialize w = Ok tt ->
  arg_prompt w = Some path -> path <> "-" ->
  fs_open w path = Ok tt -> fs_read w path = Ok prompt ->
  reaches_main w prompt.
Proof.
  intros Hi Ha Hd Ho Hread. split; [exact Hi|].
  unfold parse_args. rewrite Ha, Ho.
  apply String.eqb_neq in Hd. rewrite Hd.
  eexists _, _. split; [reflexivity|]. simpl. exact Hread.
Qed.

(** C7, as the script has it: with the prompt read from a file that holds
    [Hello], the model name [test-model] and no tool-server URL ([None],
    or the empty string), a run whose agent returns prints exactly four
    lines, in this order: [Prompt: Hello], [Using model: test-model],
    [Using MCP URL: ] followed by the rendering of the URL ([None] when it
    is absent, nothing when it is empty), and the final output of the
    agent; then it ends normally. *)
Theorem hello_run_prints_echo_then_final_output (w : World) (path : string)
    (model : Model) (result : RunResult) :
  otel_initialize w = Ok tt ->
  arg_prompt w = Some path -> path <> "-" ->
  fs_open w path = Ok tt -> fs_read w path = Ok "Hello" ->
  resolved_model w = Some "test-model" ->
  truthy (resolved_mcp_url w) = false ->
  provider_get_model w false (Some "test-model") = Ok model ->
  runner_run w (assistant model []) "Hello" gateway_run = Ok result ->
  printed (trace w)
  = ["Prompt: Hello";
     "Using model: test-model";
     "Using MCP URL: " ++ py_str (resolved_mcp_url w);
     final_output result]%string
  /\ (resolved_mcp_url w = None ->
      nth_error (printed (trace w)) 2 = Some "Using MCP URL: None")
  /\ (resolved_mcp_url w = Some "" ->
      nth_error (printed (trace w)) 2 = Some "Using MCP URL: ")
  /\ ending w = Returned.
Proof.
  intros Hi Ha Hd Ho Hread Hmodel Ht Hm Hrun.
  pose proof (reaches_main_from_file _ _ _ Hi Ha Hd Ho Hread) as Hr.
  assert (Hp : printed (trace w)
               = ["Prompt: Hello"; "Using model: test-model";
                  "Using MCP URL: " ++ py_str (resolved_mcp_url w);
                  final_output result]%string).
  { rewrite (trace_reaches_main _ _ Hr), (main_without_url _ _ _ _ Ht).
    rewrite printed_app, printed_startup, Hmodel.
    rewrite (run_agent_returns _ _ _ _ _ _ Hm Hrun). reflexivity. }
  split; [exact Hp|]. split; [|split].
  - intros Hu. rewrite Hp, Hu. reflexivity.
  - intros Hu. rewrite Hp, Hu. reflexivity.
  - rewrite (ending_reaches_main _ _ Hr), (main_without_url _ _ _ _ Ht).
    rewrite Hmodel, (run_agent_returns _ _ _ _ _ _ Hm Hrun). reflexivity.
Qed.

(** ** How the process ends *)




(** ** The concrete runs *)

Example tools_world_trace :
  trace tools_world
  = telemetry_first ++ later_imports
    ++ [EvRead;
        EvPrint "Prompt: What is the weather?";
        EvPrint "Using model: gpt-5-nano";
        EvPrint "Using MCP URL: http://localhost:1975/mcp";
        EvConnect gateway;
        EvListTools gateway;
        EvGetModel false (Some "gpt-5-nano");
        EvRunnerRun (assistant {| model_id := "gpt-5-nano" |}
                       (adapted gateway two_tools))
          "What is the weather?" gateway_run;
        EvPrint "Hi there";
        EvCleanup gateway]
  /\ ending tools_world = Returned.
Proof. split; reflexivity. Qed.

Example hello_world_stdout :
  stdout (trace hello_world)
  = ("Prompt: Hello" ++ newline
       ++ "Using model: test-model" ++ newline
       ++ "Using MCP URL: None" ++ newline
       ++ "Hi there" ++ newline)%string.
Proof. reflexivity. Qed.

Example plain_world_trace :
  trace plain_world
  = telemetry_first ++ later_imports
    ++ [EvRead;
        EvPrint "Prompt: What is the weather?";
        EvPrint "Using model: None";
        EvPrint "Using MCP URL: None";
        EvGetModel false None;
        EvRunnerRun (assistant {| model_id := "None" |} [])
          "What is the weather?" gateway_run;
        EvPrint "Hi there"]
  /\ ending plain_world = Returned.
Proof. split; reflexivity. Qed.

Lemma connection_released_exactly_once_witness :
  In (EvConnect gateway) (trace cancelled_world)
  /\ mcp_connect cancelled_world gateway = Ok tt
  /\ ending cancelled_world = Uncaught CancelledError
  /\ count is_cleanup (trace cancelled_world) = 1
  /\ exists before,
       trace cancelled_world = before ++ [EvCleanup gateway]
       /\ In (EvConnect gateway) before
       /\ count is_cleanup before = 0.
Proof.
  split; [vm_compute; find_event|]. split; [reflexivity|].
  split; [reflexivity|].
  apply (connection_released_exactly_once cancelled_world gateway).
  - vm_compute. find_event.
  - reflexivity.
Defined.

Lemma listed_tools_are_adapted_for_the_agent_witness :
  (forall a i c,
     In (EvRunnerRun a i c) (trace tools_world) ->
     length (agent_tools a) = length two_tools
     /\ map mcp_tool (agent_tools a) = two_tools
     /\ Forall (fun t => tool_server t = gateway
                         /\ convert_schemas_to_strict t = false)
          (agent_tools a)
     /\ In (EvConnect gateway) (trace tools_world))
  /\ (forall prompt model,
        reaches_main tools_world prompt ->
        mcp_connect tools_world gateway = Ok tt ->
        provider_get_model tools_world false (resolved_model tools_world)
        = Ok model ->
        In (EvRunnerRun (assistant model (adapted gateway two_tools)) prompt
              gateway_run) (trace tools_world)
        /\ count is_runner_run (trace tools_world) = 1
        /\ count is_connect (trace tools_world) = 1).
Proof.
  apply (listed_tools_are_adapted_for_the_agent tools_world
           "http://localhost:1975/mcp" two_tools).
  - reflexivity.
  - discriminate.
  - reflexivity.
Defined.

Lemma no_url_runs_agent_without_tools_witness :
  truthy (resolved_mcp_url hello_world) = false
  /\ count is_connect (trace hello_world) = 0
  /\ In (EvRunnerRun (assistant {| model_id := "test-model" |} []) "Hello"
           gateway_run) (trace hello_world).
Proof.
  split; [reflexivity|].
  destruct (no_url_runs_agent_without_tools hello_world eq_refl)
    as (_ & Hc & _ & Hrun).
  split; [exact Hc|].
  apply (Hrun "Hello" {| model_id := "test-model" |}).
  - split; [reflexivity|]. eexists _, _. split; reflexivity.
  - reflexivity.
Defined.

Lemma connection_failure_is_fatal_witness :
  resolved_mcp_url unreachable_world = Some "http://localhost:1975/mcp"
  /\ exit_status (ending unreachable_world) <> 0%Z
  /\ count is_agent (trace unreachable_world) = 0.
Proof.
  split; [reflexivity|].
  destruct (connection_failure_is_fatal unreachable_world
              "http://localhost:1975/mcp" (Exception "ConnectError"))
    as (Hs & Hc & _).
  - reflexivity.
  - discriminate.
  - reflexivity.
  - split; assumption.
Defined.

Lemma configuration_precedence_witness :
  parse_args tools_world
  = ([], inl {| ns_prompt := Stdin; ns_model := Some "gpt-5-nano";
                ns_mcp_url := Some "http://localhost:1975/mcp" |})
  /\ ns_model {| ns_prompt := Stdin; ns_model := Some "gpt-5-nano";
                 ns_mcp_url := Some "http://localhost:1975/mcp" |}
     = Some "gpt-5-nano"
  /\ ns_mcp_url {| ns_prompt := Stdin; ns_model := Some "gpt-5-nano";
                   ns_mcp_url := Some "http://localhost:1975/mcp" |}
     = Some "http://localhost:1975/mcp".
Proof.
  split; [reflexivity|].
  apply (configuration_precedence tools_world []). reflexivity.
Defined.

Lemma hello_run_prints_echo_then_final_output_witness :
  printed (trace hello_world)
  = ["Prompt: Hello"; "Using model: test-model"; "Using MCP URL: None";
     "Hi there"]
  /\ ending hello_world = Returned.
Proof.
  destruct (hello_run_prints_echo_then_final_output hello_world "hello.txt"
              {| model_id := "test-model" |} {| final_output := "Hi there" |})
    as (Hp & _ & _ & He);
    try reflexivity; try discriminate.
  split; [exact Hp|exact He].
Defined.

Lemma listing_failure_skips_agent_and_releases_witness :
  ending listing_fails_world = Uncaught (Exception "McpError")
  /\ count is_agent (trace listing_fails_world) = 0
  /\ count is_cleanup (trace listing_fails_world) = 1.
Proof.
  destruct (listing_failure_skips_agent_and_releases listing_fails_world
              gateway (Exception "McpError"))
    as (Ha & _ & _ & He).
  - vm_compute. find_event.
  - reflexivity.
  - reflexivity.
  - split; [apply He; reflexivity|]. split; [exact Ha|reflexivity].
Defined.

Lemma model_name_is_passed_through_witness :
  resolved_model plain_world = None
  /\ In (EvGetModel false None) (trace plain_world)
  /\ count is_get_model (trace plain_world) = 1.
Proof.
  split; [reflexivity|].
  destruct (model_name_is_passed_through plain_world "What is the weather?")
    as (Hin & Hc & _).
  - split; [reflexivity|]. eexists _, _. split; reflexivity.
  - left. reflexivity.
  - split; [exact Hin|exact Hc].
Defined.

(** C7 as stated fails: for the file holding [Hello], the model
    [test-model] and no tool-server URL, the run prints four lines, the
    third being [Using MCP URL: None]; no line printed is [Using tool URL: ]
    or starts with it, whatever rendering of the missing URL follows. *)
Lemma hello_run_prints_no_tool_url_line :
  arg_prompt hello_world = Some "hello.txt"
  /\ fs_read hello_world "hello.txt" = Ok "Hello"
  /\ resolved_model hello_world = Some "test-model"
  /\ resolved_mcp_url hello_world = None
  /\ printed (trace hello_world)
     = ["Prompt: Hello"; "Using model: test-model"; "Using MCP URL: None";
        "Hi there"]
  /\ ~ (exists rendering,
          In ("Using tool URL: " ++ rendering)%string
            (printed (trace hello_world))).
Proof.
  repeat (split; [reflexivity|]).
  intros (r & Hin). vm_compute in Hin.
  destruct Hin as [H|[H|[H|[H|[]]]]]; discriminate H.
Qed.


(** * Further properties of the script *)

Lemma parse_args_log_cases w :
  fst (parse_args w) = []
  \/ exists path, fst (parse_args w) = [EvOpen path]
                  /\ arg_prompt w = Some path /\ path <> "-".
Proof.
  unfold parse_args. destruct (arg_prompt w) as [path|]; [|auto].
  destruct (String.eqb path "-") eqn:Hd; [auto|].
  apply String.eqb_neq in Hd.
  destruct (fs_open w path); right; exists path; auto.
Qed.

(** Every run, case by case: the three early stops, the three outcomes of
    [run_agent] without a URL, the failed connection, the failed listing,
    and the three outcomes of [run_agent] inside the connection. *)
Ltac enumerate_runs w :=
  let He := fresh "He" in
  let Hr := fresh "Hr" in
  let Hm := fresh "Hm" in
  let Ht := fresh "Ht" in
  let Hurl := fresh "Hurl" in
  let mcp_url := fresh "mcp_url" in
  destruct (run_inv w) as [? ? He | ? ? ? Hr Hm];
  [ destruct He
  | remember (resolved_mcp_url w) as mcp_url eqn:Hurl in Hm;
    symmetry in Hurl;
    destruct Hm as [? ? ? Ht Hm | | | ? ? ? ? ? ? ? Hm];
    [rewrite <- Hurl in Ht; clear Hurl; destruct Hm| | |destruct Hm] ].

(** Identifies the prompt of the case at hand with the one of [Hreach]. *)
Ltac same_prompt Hreach :=
  match goal with
  | H : reaches_main _ _ |- _ =>
      tryif constr_eq H Hreach then fail
      else (pose proof (reaches_main_unique _ _ _ H Hreach); subst; clear H)
  end.

Ltac in_cases H :=
  simpl in H; repeat (destruct H as [H|H]; [try discriminate H|]);
  try contradiction.

(** Writes the start-up part of the log out, event by event. *)
Ltac concrete_log w :=
  unfold startup_log, after_telemetry in *;
  try match goal with
      | H : parse_args w = (?l, _) |- _ =>
          let E := fresh in
          assert (E : l = fst (parse_args w)) by (rewrite H; reflexivity);
          rewrite E in *; clear E
      end;
  let Hpl := fresh "Hpl" in
  destruct (parse_args_log_cases w) as [Hpl|(? & Hpl & _ & _)];
  rewrite ?Hpl in *;
  unfold telemetry_first, later_imports in *.

(** X1: each kind of call that leaves the script for the file system, the
    tool server or the agent runtime is made at most once in a run: one
    [open], one [read], one connection, one listing, one release, one
    request for a model and one agent run; nothing is retried. *)
Theorem each_call_at_most_once (w : World) :
  count is_open (trace w) <= 1
  /\ count is_read (trace w) <= 1
  /\ count is_connect (trace w) <= 1
  /\ count is_list_tools (trace w) <= 1
  /\ count is_cleanup (trace w) <= 1
  /\ count is_get_model (trace w) <= 1
  /\ count is_runner_run (trace w) <= 1.
Proof.
  enumerate_runs w; concrete_log w; unfold count; simpl; auto 10.
Qed.

Lemma split_after_prefix (P : event -> bool) s l pre e post :
  Forall (fun x => P x = true) s -> P e = false ->
  s ++ l = pre ++ e :: post ->
  exists pre', pre = s ++ pre' /\ l = pre' ++ e :: post.
Proof.
  intros Hs He. revert pre.
  induction Hs as [|x s Hx _ IH]; intros pre Heq; simpl in Heq.
  - exists pre. auto.
  - destruct pre as [|y pre]; simpl in Heq.
    + injection Heq as <- _. congruence.
    + injection Heq as <- Heq. destruct (IH _ Heq) as (pre' & -> & Hl).
      exists pre'. auto.
Qed.

Lemma library_call_not_startup e :
  is_mcp e || is_agent e = true -> is_startup e = false.
Proof. destruct e; simpl; congruence. Qed.

Lemma main_log_after_startup w prompt model_name mcp_url l r :
  main_log w prompt model_name mcp_url l r ->
  Forall (fun e => is_read e = false /\ is_open e = false) l.
Proof.
  intros H. destruct H as [? ? ? ? H | | | ? ? ? ? ? ? ? H];
    [destruct H| | |destruct H]; simpl; repeat constructor.
Qed.

Lemma Forall_prefix {A} (P : A -> Prop) (l1 l2 : list A) :
  Forall P (l1 ++ l2) -> Forall P l1.
Proof. intros H. apply Forall_app in H. apply H. Qed.

(** X2: by the time of any call to the tool server or into the agent
    runtime the start-up is complete: telemetry is initialised, the prompt
    has been read (once, fully), and the three lines echoing the prompt,
    the model and the URL are the first lines printed. *)
Theorem startup_precedes_every_library_call (w : World) pre e post :
  trace w = pre ++ e :: post ->
  is_mcp e || is_agent e = true ->
  exists prompt,
    reaches_main w prompt
    /\ In EvInitialize pre
    /\ count is_read pre = 1
    /\ exists more, printed pre = echo_lines w prompt ++ more.
Proof.
  intros Ht He. pose proof (library_call_not_startup _ He) as Hns.
  destruct (run_inv w) as [l t Hse | prompt l r Hr Hm].
  - exfalso. destruct (stops_early_log _ _ _ Hse) as (Hl & _).
    rewrite Forall_forall in Hl.
    assert (Hin : In e l) by (rewrite Ht; apply in_or_app; right; left; auto).
    apply Hl in Hin. congruence.
  - destruct (split_after_prefix is_startup _ _ _ _ _
                (startup_log_startup w prompt) Hns Ht) as (pre' & -> & Hl).
    exists prompt. split; [exact Hr|]. split.
    { apply in_or_app. left. unfold startup_log, telemetry_first.
      simpl. auto. }
    split.
    + rewrite count_app.
      assert (Hpre' : count is_read pre' = 0).
      { apply count_none. apply main_log_after_startup in Hm.
        rewrite Hl in Hm. apply Forall_prefix in Hm.
        eapply Forall_impl; [|exact Hm]. simpl. tauto. }
      rewrite Hpre'. clear. concrete_log w; reflexivity.
    + exists (printed pre'). rewrite printed_app, printed_startup.
      reflexivity.
Qed.

(** X3: every call of the runner is for an agent named [Assistant], on
    the prompt the run read, under the workflow name [envoy-ai-gateway],
    and with the model the provider returned for the resolved model name
    (asked with [use_responses=False]). *)
Theorem runner_is_called_on_the_prompt (w : World) a i c :
  In (EvRunnerRun a i c) (trace w) ->
  agent_name a = "Assistant"
  /\ workflow_name c = "envoy-ai-gateway"
  /\ reaches_main w i
  /\ provider_get_model w false (resolved_model w) = Ok (agent_model a)
  /\ In (EvGetModel false (resolved_model w)) (trace w).
Proof.
  intros Hin.
  destruct (agent_event_origin _ _ Hin eq_refl)
    as (prompt & tools & Hr & Hra & _).
  destruct (run_agent_runner_run _ _ _ _ _ _ _ Hra) as (Hm & Ha & -> & ->).
  rewrite Ha. repeat (split; [first [reflexivity|assumption]|]).
  clear - Hin. revert Hin.
  enumerate_runs w; concrete_log w; simpl; intros Hin;
    first [ solve [find_event] | exfalso; intuition discriminate ].
Qed.

(** X4: every call to the tool server of a run is about one and the same
    server object: the one built from the resolved URL, which is then not
    empty, with the timeout of 300 seconds and the caching of the tool list
    switched on.  The listing and the release happen only on a connection
    that was opened before. *)
Theorem tool_server_calls_use_one_server (w : World) (e : event)
    (s : MCPServerStreamableHttp) :
  In e (trace w) -> server_of e = Some s ->
  exists u,
    resolved_mcp_url w = Some u /\ u <> ""
    /\ url (params s) = u /\ timeout (params s) = 300%Z
    /\ cache_tools_list s = true
    /\ In (EvConnect s) (trace w)
    /\ (is_connect e = false -> mcp_connect w s = Ok tt).
Proof.
  enumerate_runs w; concrete_log w; intros Hin Hs; in_cases Hin;
    subst e; simpl in Hs; try discriminate Hs; injection Hs as <-;
    eexists; (split; [eassumption|]); (split; [assumption|]);
    repeat (split; [reflexivity|]);
    (split; [simpl; solve [find_event]|]);
    simpl; intros; first [assumption|discriminate].
Qed.

(** X5: what a run that got to [main] prints is the three echo lines,
    followed by the final output exactly when the runner returned a result;
    whatever fails later, the echo lines stay and nothing else is
    printed. *)
Theorem printed_lines (w : World) (prompt : string) :
  reaches_main w prompt ->
  (forall a i c result,
     In (EvRunnerRun a i c) (trace w) -> runner_run w a i c = Ok result ->
     printed (trace w) = echo_lines w prompt ++ [final_output result])
  /\ ((forall a i c result,
         In (EvRunnerRun a i c) (trace w) -> runner_run w a i c <> Ok result)
      -> printed (trace w) = echo_lines w prompt).
Proof.
  intros Hreach.
  enumerate_runs w;
    try solve [exfalso; eapply stops_early_not_reached; [|exact Hreach];
               econstructor; eassumption].
  all: same_prompt Hreach.
  all: rewrite ?printed_app, printed_startup; fold (echo_lines w prompt).
  all: split.
  all: try solve
         [ intros a i c result' Hin Hok;
           apply in_after_startup in Hin;
             [|apply startup_log_startup|reflexivity];
           in_cases Hin; try (injection Hin as <- <- <-);
           simpl; rewrite ?app_nil_r; first [reflexivity | congruence] ].
  all: intros Hnone; simpl; rewrite ?app_nil_r; try reflexivity.
  all: exfalso; eapply Hnone; [|eassumption];
    apply in_or_app; right; simpl; solve [find_event].
Qed.

(** X8: an empty [--mcp-url] on the command line switches the tool server
    off even when MCP_URL is set in the environment: no call to the tool
    server is made and the agent runs without tools. *)
Theorem empty_flag_turns_tool_server_off (w : World) :
  arg_mcp_url w = Some "" ->
  count is_mcp (trace w) = 0
  /\ (forall a i c, In (EvRunnerRun a i c) (trace w) -> agent_tools a = []).
Proof.
  intros Hflag.
  assert (Hurl : resolved_mcp_url w = Some "")
    by (unfold resolved_mcp_url; rewrite Hflag; reflexivity).
  enumerate_runs w; try congruence;
    (split;
     [ concrete_log w; reflexivity
     | intros a i c Hin;
       try (apply in_after_startup in Hin;
              [|apply startup_log_startup|reflexivity]);
       try (concrete_log w);
       in_cases Hin; try (injection Hin as <- _ _; reflexivity) ]).
Qed.

(** X11: when the provider raises on the request for a model, the runner
    is never called and the process exits with a non-zero status. *)
Theorem model_failure_skips_the_run (w : World) (e : exn) :
  provider_get_model w false (resolved_model w) = Raise e ->
  count is_runner_run (trace w) = 0 /\ exit_status (ending w) <> 0%Z.
Proof.
  intros Hm.
  enumerate_runs w; try congruence;
    (split; [concrete_log w; reflexivity|]);
    simpl;
    try match goal with
        | |- context [mcp_cleanup w ?s] =>
            destruct (mcp_cleanup w s) as [[]|?]
        end;
    simpl; discriminate.
Qed.

Lemma parse_args_stdin w :
  arg_prompt w = None \/ arg_prompt w = Some "-" ->
  parse_args w
  = ([], inl {| ns_prompt := Stdin; ns_model := resolved_model w;
                ns_mcp_url := resolved_mcp_url w |}).
Proof. unfold parse_args. intros [-> | ->]; reflexivity. Qed.

(** X12: without the positional argument, or with [-] in its place, no
    file is opened and the prompt is what standard input holds: it is the
    text of the first line printed; when reading standard input fails, the
    process ends with that exception and prints nothing. *)
Theorem prompt_from_standard_input (w : World) :
  arg_prompt w = None \/ arg_prompt w = Some "-" ->
  otel_initialize w = Ok tt ->
  count is_open (trace w) = 0
  /\ (forall p, stdin_read w = Ok p ->
        reaches_main w p
        /\ nth_error (printed (trace w)) 0 = Some ("Prompt: " ++ p)%string)
  /\ (forall e, stdin_read w = Raise e ->
        ending w = Uncaught e /\ printed (trace w) = []).
Proof.
  intros Harg Hi. pose proof (parse_args_stdin _ Harg) as Hpa.
  assert (Hreach : forall p, stdin_read w = Ok p -> reaches_main w p).
  { intros p Hp. split; [exact Hi|]. eexists _, _. split; [exact Hpa|].
    simpl. exact Hp. }
  split; [|split].
  - enumerate_runs w;
      try (unfold startup_log, after_telemetry);
      rewrite ?Hpa in *;
      try match goal with
          | H : (_, _) = (_, _) |- _ => injection H as <- <-
          end;
      try reflexivity; try congruence.
    destruct Harg; congruence.
  - intros p Hp. split; [auto|].
    rewrite (trace_reaches_main _ _ (Hreach p Hp)), printed_app.
    rewrite printed_startup. reflexivity.
  - intros e He. unfold ending, trace, script.
    rewrite (prelude_ok _ Hi), Hpa. unfold main_block, read, call, bind.
    cbn [ns_prompt]. rewrite He. split; reflexivity.
Qed.

(** ** The tool server and the agent runtime do not interfere *)

Lemma filter_startup_mcp l :
  Forall (fun e => is_startup e = true) l -> filter is_mcp l = [].
Proof.
  induction 1 as [|e l He _ IH]; simpl; [reflexivity|].
  rewrite (startup_not_mcp _ He). exact IH.
Qed.

Lemma filter_run_agent_mcp w prompt model_name tools :
  filter is_mcp (fst (run_agent w prompt model_name tools)) = [].
Proof.
  pose proof (run_agent_log_events _ _ _ _ _ _
                (run_agent_inv w prompt model_name tools)) as H.
  induction H as [|e l [_ He] _ IH]; simpl; [reflexivity|].
  rewrite He. exact IH.
Qed.

(** The calls to the tool server of a run, read off the world. *)
Lemma tool_server_calls_early w :
  (forall prompt, ~ reaches_main w prompt) -> filter is_mcp (trace w) = [].
Proof.
  intros Hnever. destruct (script_inv w) as [(l & t & He & Hs)|(p & Hr)].
  - unfold trace. rewrite Hs. apply filter_startup_mcp.
    apply (stops_early_log _ _ _ He).
  - destruct (Hnever _ Hr).
Qed.

Lemma tool_server_calls_main w prompt :
  reaches_main w prompt ->
  filter is_mcp (trace w)
  = if truthy (resolved_mcp_url w) then
      let s := mcp_server (string_of (resolved_mcp_url w)) in
      match mcp_connect w s with
      | Ok _ => [EvConnect s; EvListTools s; EvCleanup s]
      | Raise _ => [EvConnect s]
      end
    else [].
Proof.
  intros Hr. rewrite (trace_reaches_main _ _ Hr), filter_app.
  rewrite (filter_startup_mcp _ (startup_log_startup w prompt)).
  destruct (truthy (resolved_mcp_url w)) eqn:Ht.
  - apply truthy_Some in Ht. destruct Ht as (u & -> & Hne). cbn [string_of].
    cbv zeta.
    destruct (mcp_connect w (mcp_server u)) as [[]|e] eqn:Hc.
    + destruct (mcp_list_tools w (mcp_server u)) as [ds|e] eqn:Hl.
      * rewrite (main_listed _ _ _ _ _ Hne Hc Hl). cbn [fst].
        rewrite !filter_app, filter_run_agent_mcp. reflexivity.
      * rewrite (main_list_raises _ _ _ _ _ Hne Hc Hl). reflexivity.
    + rewrite (main_connect_raises _ _ _ _ _ Hne Hc). reflexivity.
  - rewrite (main_without_url _ _ _ _ Ht), filter_run_agent_mcp. reflexivity.
Qed.

Lemma same_outside_agent_sym w1 w2 :
  same_outside_agent w1 w2 -> same_outside_agent w2 w1.
Proof.
  intros (Hp & Hu & Ho & Hrd & Hs & Hi & Hc).
  repeat split; intros; symmetry; auto.
Qed.

Lemma same_outside_agent_reaches_main w1 w2 prompt :
  same_outside_agent w1 w2 ->
  reaches_main w1 prompt -> reaches_main w2 prompt.
Proof.
  intros (Hp & Hu & Ho & Hrd & Hs & Hi & Hc) (Hi1 & l & args & Hpa & Hread).
  split; [congruence|].
  unfold parse_args in *. rewrite <- Hp.
  destruct (arg_prompt w1) as [path|].
  - destruct (String.eqb path "-").
    + injection Hpa as <- <-. eexists _, _. split; [reflexivity|].
      simpl in *. congruence.
    + rewrite <- Ho. destruct (fs_open w1 path); [|discriminate].
      injection Hpa as <- <-. eexists _, _. split; [reflexivity|].
      simpl in *. rewrite <- Hrd. exact Hread.
  - injection Hpa as <- <-. eexists _, _. split; [reflexivity|].
    simpl in *. congruence.
Qed.

(** X13: the calls the script itself makes to the tool server (the
    connection, the listing, the release) do not depend on the model name,
    on the provider, on the runner, or on what the tool server lists: two
    runs with the same prompt source, the same resolved URL and the same
    answer to the connection attempt make the same three kinds of call, in
    the same order.  In particular a failing agent run changes nothing to
    the opening and the release of the connection.  What the agent runtime
    does with the tools inside [Runner.run] is part of that one event and
    is not looked into. *)
Theorem tool_server_calls_ignore_the_agent (w1 w2 : World) :
  same_outside_agent w1 w2 ->
  filter is_mcp (trace w1) = filter is_mcp (trace w2).
Proof.
  intros Hsame.
  destruct (script_inv w1) as [(l & t & He & Hs)|(prompt & Hr)].
  - assert (Hnever1 : forall p, ~ reaches_main w1 p).
    { intros p Hp. eapply stops_early_not_reached; eauto. }
    assert (Hnever2 : forall p, ~ reaches_main w2 p).
    { intros p Hp. apply (Hnever1 p).
      eapply same_outside_agent_reaches_main;
        [apply same_outside_agent_sym|]; eauto. }
    rewrite (tool_server_calls_early _ Hnever1).
    rewrite (tool_server_calls_early _ Hnever2). reflexivity.
  - pose proof (same_outside_agent_reaches_main _ _ _ Hsame Hr) as Hr2.
    rewrite (tool_server_calls_main _ _ Hr), (tool_server_calls_main _ _ Hr2).
    destruct Hsame as (_ & Hu & _ & _ & _ & _ & Hc).
    rewrite <- Hu. cbv zeta. rewrite <- Hc. reflexivity.
Qed.

(** ** The further properties on concrete runs *)

Lemma startup_precedes_every_library_call_witness :
  exists prompt,
    reaches_main tools_world prompt
    /\ In EvInitialize
         (telemetry_first ++ later_imports
            ++ [EvRead;
                EvPrint "Prompt: What is the weather?";
                EvPrint "Using model: gpt-5-nano";
                EvPrint "Using MCP URL: http://localhost:1975/mcp"])
    /\ count is_read
         (telemetry_first ++ later_imports
            ++ [EvRead;
                EvPrint "Prompt: What is the weather?";
                EvPrint "Using model: gpt-5-nano";
                EvPrint "Using MCP URL: http://localhost:1975/mcp"]) = 1
    /\ exists more,
         printed
           (telemetry_first ++ later_imports
              ++ [EvRead;
                  EvPrint "Prompt: What is the weather?";
                  EvPrint "Using model: gpt-5-nano";
                  EvPrint "Using MCP URL: http://localhost:1975/mcp"])
         = echo_lines tools_world prompt ++ more.
Proof.
  apply (startup_precedes_every_library_call tools_world _
           (EvConnect gateway)
           [EvListTools gateway;
            EvGetModel false (Some "gpt-5-nano");
            EvRunnerRun (assistant {| model_id := "gpt-5-nano" |}
                           (adapted gateway two_tools))
              "What is the weather?" gateway_run;
            EvPrint "Hi there";
            EvCleanup gateway]).
  - reflexivity.
  - reflexivity.
Defined.

Lemma runner_is_called_on_the_prompt_witness :
  agent_name (assistant {| model_id := "gpt-5-nano" |}
                (adapted gateway two_tools)) = "Assistant"
  /\ workflow_name gateway_run = "envoy-ai-gateway"
  /\ reaches_main tools_world "What is the weather?"
  /\ provider_get_model tools_world false (resolved_model tools_world)
     = Ok {| model_id := "gpt-5-nano" |}
  /\ In (EvGetModel false (resolved_model tools_world)) (trace tools_world).
Proof.
  apply (runner_is_called_on_the_prompt tools_world
           (assistant {| model_id := "gpt-5-nano" |}
              (adapted gateway two_tools))
           "What is the weather?" gateway_run).
  vm_compute. find_event.
Defined.

Lemma tool_server_calls_use_one_server_witness :
  exists u,
    resolved_mcp_url tools_world = Some u /\ u <> ""
    /\ url (params gateway) = u /\ timeout (params gateway) = 300%Z
    /\ cache_tools_list gateway = true
    /\ In (EvConnect gateway) (trace tools_world)
    /\ (is_connect (EvCleanup gateway) = false ->
        mcp_connect tools_world gateway = Ok tt).
Proof.
  apply (tool_server_calls_use_one_server tools_world (EvCleanup gateway)
           gateway).
  - vm_compute. find_event.
  - reflexivity.
Defined.

Lemma printed_lines_witness :
  printed (trace hello_world)
  = echo_lines hello_world "Hello" ++ ["Hi there"].
Proof.
  destruct (printed_lines hello_world "Hello") as (Hout & _).
  - split; [reflexivity|]. eexists _, _. split; reflexivity.
  - apply (Hout (assistant {| model_id := "test-model" |} []) "Hello"
             gateway_run {| final_output := "Hi there" |}).
    + vm_compute. find_event.
    + reflexivity.
Defined.

Lemma empty_flag_turns_tool_server_off_witness :
  getenv empty_flag_world "MCP_URL" = Some "http://localhost:1975/mcp"
  /\ count is_mcp (trace empty_flag_world) = 0
  /\ (forall a i c,
        In (EvRunnerRun a i c) (trace empty_flag_world) ->
        agent_tools a = []).
Proof.
  split; [reflexivity|].
  apply (empty_flag_turns_tool_server_off empty_flag_world). reflexivity.
Defined.

Lemma model_failure_skips_the_run_witness :
  count is_runner_run (trace no_provider_world) = 0
  /\ exit_status (ending no_provider_world) <> 0%Z.
Proof.
  apply (model_failure_skips_the_run no_provider_world
           (Exception "OpenAIError")).
  reflexivity.
Defined.

Lemma prompt_from_standard_input_witness :
  count is_open (trace plain_world) = 0
  /\ reaches_main plain_world "What is the weather?"
  /\ nth_error (printed (trace plain_world)) 0
     = Some "Prompt: What is the weather?".
Proof.
  destruct (prompt_from_standard_input plain_world) as (Ho & Hok & _).
  - left. reflexivity.
  - reflexivity.
  - split; [exact Ho|]. apply (Hok "What is the weather?"). reflexivity.
Defined.

Lemma tool_server_calls_ignore_the_agent_witness :
  ending tools_world = Returned
  /\ ending cancelled_world = Uncaught CancelledError
  /\ filter is_mcp (trace tools_world) = filter is_mcp (trace cancelled_world).
Proof.
  split; [reflexivity|]. split; [reflexivity|].
  apply (tool_server_calls_ignore_the_agent tools_world cancelled_world).
  repeat split; intros; reflexivity.
Defined.

(** ** The process on any command line *)


(** The only file the script opens is the positional of the command
    line, and only once telemetry is initialised. *)
Lemma opened_file_is_the_positional w path :
  In (EvOpen path) (trace w) ->
  otel_initialize w = Ok tt /\ arg_prompt w = Some path /\ path <> "-".
Proof.
  assert (Hparse : In (EvOpen path) (fst (parse_args w)) ->
                   arg_prompt w = Some path /\ path <> "-").
  { destruct (parse_args_log_cases w) as [->|(p & -> & Ha & Hne)];
      intros Hin; in_cases Hin. injection Hin as <-. auto. }
  destruct (run_inv w) as [l t He | prompt l r Hr Hm]; intros Hin.
  - destruct He as [e Hi | p e Hi Ha Hd Ho | l args e Hi Hp Hrd].
    + in_cases Hin.
    + in_cases Hin. injection Hin as <-. auto.
    + split; [exact Hi|]. apply Hparse. rewrite Hp. cbn [fst].
      unfold telemetry_first, later_imports in Hin. simpl in Hin.
      repeat (destruct Hin as [Hin|Hin]; [discriminate Hin|]).
      apply in_app_or in Hin. destruct Hin as [Hin|Hin]; [exact Hin|].
      in_cases Hin.
  - split; [apply Hr|]. apply Hparse.
    apply in_app_or in Hin. destruct Hin as [Hin|Hin].
    + unfold startup_log, after_telemetry, telemetry_first, later_imports
        in Hin. simpl in Hin.
      repeat (destruct Hin as [Hin|Hin]; [discriminate Hin|]).
      apply in_app_or in Hin. destruct Hin as [Hin|Hin]; [exact Hin|].
      in_cases Hin.
    + exfalso. apply main_log_after_startup in Hm.
      rewrite Forall_forall in Hm. apply Hm in Hin. simpl in Hin.
      destruct Hin. discriminate.
Qed.


Lemma convert_prompt_events w p path :
  In (EvOpen path) (fst (convert_prompt w p)) ->
  p = Some path
  /\ snd (convert_prompt w p)
     = match fs_open w path with Ok _ => true | Raise _ => false end.
Proof.
  unfold convert_prompt. destruct p as [q|]; [|intros []].
  destruct (String.eqb q "-"); [intros []|].
  destruct (fs_open w q) eqn:Ho; intros Hin; in_cases Hin;
    injection Hin as <-; rewrite Ho; auto.
Qed.

Lemma convert_prompt_quiet w p :
  printed (fst (convert_prompt w p)) = []
  /\ count is_mcp (fst (convert_prompt w p)) = 0
  /\ count is_agent (fst (convert_prompt w p)) = 0.
Proof.
  unfold convert_prompt. destruct p as [q|]; [|auto].
  destruct (String.eqb q "-"); [auto|].
  destruct (fs_open w q); auto.
Qed.

(** What a parser exit leaves behind: the events of the prelude and of the
    conversion of the positional, nothing else. *)
Lemma parser_exit_quiet w p l0 :
  prelude w = (l0, Ok tt) ->
  printed (l0 ++ fst (convert_prompt w p)) = []
  /\ count is_mcp (l0 ++ fst (convert_prompt w p)) = 0
  /\ count is_agent (l0 ++ fst (convert_prompt w p)) = 0.
Proof.
  intros Hp.
  assert (Hi : otel_initialize w = Ok tt).
  { destruct (otel_initialize w) as [[]|e] eqn:Hi; [reflexivity|].
    rewrite (prelude_raises _ _ Hi) in Hp. discriminate. }
  rewrite (prelude_ok _ Hi) in Hp. injection Hp as <-.
  destruct (convert_prompt_quiet w p) as (Hpr & Hm & Ha).
  rewrite printed_app, !count_app, Hpr, Hm, Ha. auto.
Qed.


Lemma not_reached_is_silent w :
  (forall prompt, ~ reaches_main w prompt) ->
  printed (trace w) = []
  /\ count is_mcp (trace w) = 0
  /\ count is_agent (trace w) = 0
  /\ exit_status (ending w) <> 0%Z.
Proof.
  intros Hnever.
  enumerate_runs w;
    try solve [exfalso; eapply Hnever; eassumption];
    concrete_log w; unfold count; simpl; repeat split; discriminate.
Qed.

Lemma parse_args_stream w l args :
  parse_args w = (l, inl args) -> ns_prompt args = prompt_stream w.
Proof.
  unfold parse_args, prompt_stream. destruct (arg_prompt w) as [path|].
  - destruct (String.eqb path "-").
    + intros [= _ <-]. reflexivity.
    + destruct (fs_open w path); [|discriminate].
      intros [= _ <-]. reflexivity.
  - intros [= _ <-]. reflexivity.
Qed.

(** X6: when the telemetry initialisation raises, when the prompt file is
    opened and the opening fails, or when the prompt is read and the reading
    raises, nothing is written to standard output, neither the echo lines
    nor the help text, neither the tool server nor the agent runtime is
    called, and the exit status is not 0; this on any command line. *)
Theorem early_failure_is_silent (c : command_line) (w : World) :
  (exists e, otel_initialize w = Raise e)
  \/ (exists path e,
        In (EvOpen path) (events (process c w))
        /\ fs_open w path = Raise e)
  \/ (c = Declared /\ In EvRead (trace w)
      /\ exists e, snd (read w (prompt_stream w)) = Raise e) ->
  help_on_stdout (process c w) = false
  /\ printed (events (process c w)) = []
  /\ count is_mcp (events (process c w)) = 0
  /\ count is_agent (events (process c w)) = 0
  /\ exit_status (process_end (process c w)) <> 0%Z.
Proof.
  intros Hcause. destruct c as [|p|p].
  - cbn [process events process_end help_on_stdout] in *.
    split; [reflexivity|]. apply not_reached_is_silent.
    intros prompt (Hi & l & args & Hpa & Hrd).
    destruct Hcause as [(e & He)|[(path & e & Hin & Ho)|(_ & _ & e & He)]].
    + congruence.
    + destruct (opened_file_is_the_positional _ _ Hin) as (_ & Ha & Hd).
      unfold parse_args in Hpa. rewrite Ha, Ho in Hpa.
      apply String.eqb_neq in Hd. rewrite Hd in Hpa. discriminate.
    + rewrite (parse_args_stream _ _ _ Hpa) in Hrd. congruence.
  - cbn [process] in *.
    destruct (otel_initialize w) as [[]|e0] eqn:Hi.
    + rewrite (prelude_ok _ Hi) in *.
      destruct (parser_exit_quiet w p _ (prelude_ok _ Hi)) as (Hpr & Hm & Ha).
      destruct Hcause as [(e & He)|[(path & e & Hin & Ho)|(Hc & _)]];
        [discriminate| |discriminate].
      destruct (convert_prompt w p) as [l1 goes_on] eqn:Hcp.
      cbn [fst] in *.
      assert (goes_on = false).
      { destruct goes_on; [|reflexivity].
        cbn [events] in Hin. apply in_app_or in Hin.
        destruct Hin as [Hin|Hin]; [in_cases Hin|].
        replace l1 with (fst (convert_prompt w p)) in Hin
          by (rewrite Hcp; reflexivity).
        apply convert_prompt_events in Hin. destruct Hin as (_ & Hs).
        rewrite Hcp, Ho in Hs. exact Hs. }
      subst goes_on. cbn [events process_end help_on_stdout exit_status].
      repeat (split; [assumption || reflexivity|]). discriminate.
    + rewrite (prelude_raises _ _ Hi).
      cbn [events process_end help_on_stdout exit_status].
      repeat (split; [reflexivity|]). discriminate.
  - cbn [process] in *.
    destruct (otel_initialize w) as [[]|e0] eqn:Hi.
    + rewrite (prelude_ok _ Hi) in *.
      destruct (parser_exit_quiet w p _ (prelude_ok _ Hi)) as (Hpr & Hm & Ha).
      destruct (convert_prompt w p) as [l1 goes_on].
      cbn [fst events process_end help_on_stdout exit_status] in *.
      repeat (split; [assumption || reflexivity|]). discriminate.
    + rewrite (prelude_raises _ _ Hi).
      cbn [events process_end help_on_stdout exit_status].
      repeat (split; [reflexivity|]). discriminate.
Qed.

(** X9: when the release of the connection raises an exception of its
    own, the process ends with that exception uncaught, whatever the block
    did before, also after an agent run that returned and whose final
    output is printed; the exit status is not 0. *)
Theorem release_failure_is_fatal (w : World) (s : MCPServerStreamableHttp)
    (cls : string) :
  In (EvCleanup s) (trace w) ->
  mcp_cleanup w s = Raise (Exception cls) ->
  ending w = Uncaught (Exception cls)
  /\ exit_status (ending w) <> 0%Z.
Proof.
  enumerate_runs w; intros Hin Hx;
    try (apply in_after_startup in Hin;
           [|apply startup_log_startup|reflexivity]);
    try (concrete_log w);
    in_cases Hin; injection Hin as <-; rewrite Hx;
    (split; [reflexivity|discriminate]).
Qed.

(** X10: when the runner raises an exception of its own, it is not called
    again, nothing more is printed, and the exit status is not 0; unless
    the release of the connection raises too, the exception of the runner
    is the one that ends the process. *)
Theorem agent_failure_is_fatal (w : World) a i c (cls : string) :
  In (EvRunnerRun a i c) (trace w) ->
  runner_run w a i c = Raise (Exception cls) ->
  count is_runner_run (trace w) = 1
  /\ printed (trace w) = echo_lines w i
  /\ exit_status (ending w) <> 0%Z
  /\ ((forall s e', In (EvCleanup s) (trace w) ->
                    mcp_cleanup w s <> Raise e') ->
      ending w = Uncaught (Exception cls)).
Proof.
  enumerate_runs w; intros Hin Hrun;
    try (apply in_after_startup in Hin;
           [|apply startup_log_startup|reflexivity];
         in_cases Hin; injection Hin as <- <- <-; try congruence);
    try (exfalso; concrete_log w; in_cases Hin; fail);
    match goal with
    | H : runner_run _ _ _ _ = Raise ?e0 |- _ =>
        tryif constr_eq H Hrun then fail
        else (assert (e0 = Exception cls) by congruence; subst e0)
    end;
    rewrite ?printed_app, printed_startup; fold (echo_lines w prompt).
  - split; [concrete_log w; reflexivity|].
    split; [apply app_nil_r|]. split; [discriminate|]. reflexivity.
  - split; [concrete_log w; reflexivity|].
    split; [apply app_nil_r|].
    destruct (mcp_cleanup w (mcp_server u)) as [[]|e'] eqn:Hx;
      (split; [discriminate|]).
    + reflexivity.
    + intros Hnone. exfalso. apply (Hnone (mcp_server u) e'); [|exact Hx].
      apply in_or_app. right. simpl. solve [find_event].
Qed.

(** ** The process on concrete command lines *)

Example help_run :
  process (HelpOption None) tools_world
  = {| events := telemetry_first ++ later_imports;
       help_on_stdout := true;
       process_end := SystemExit 0 |}.
Proof. reflexivity. Qed.

Example help_after_missing_file :
  process (HelpOption (Some "missing.txt")) missing_file_world
  = {| events := telemetry_first ++ later_imports ++ [EvOpen "missing.txt"];
       help_on_stdout := false;
       process_end := SystemExit 2 |}.
Proof. reflexivity. Qed.

Example rejected_run :
  process (Rejected None) tools_world
  = {| events := telemetry_first ++ later_imports;
       help_on_stdout := false;
       process_end := SystemExit 2 |}.
Proof. reflexivity. Qed.

Lemma early_failure_is_silent_witness :
  help_on_stdout (process Declared missing_file_world) = false
  /\ printed (events (process Declared missing_file_world)) = []
  /\ count is_mcp (events (process Declared missing_file_world)) = 0
  /\ count is_agent (events (process Declared missing_file_world)) = 0
  /\ exit_status (process_end (process Declared missing_file_world)) <> 0%Z.
Proof.
  apply (early_failure_is_silent Declared missing_file_world).
  right. left. exists "missing.txt", (Exception "FileNotFoundError").
  split; [vm_compute; find_event|reflexivity].
Defined.

Lemma release_failure_is_fatal_witness :
  In (EvPrint "Hi there") (trace release_fails_world)
  /\ ending release_fails_world = Uncaught (Exception "ClosedResourceError")
  /\ exit_status (ending release_fails_world) <> 0%Z.
Proof.
  split; [vm_compute; find_event|].
  apply (release_failure_is_fatal release_fails_world gateway).
  - vm_compute. find_event.
  - reflexivity.
Defined.

Lemma agent_failure_is_fatal_witness :
  count is_runner_run (trace agent_fails_world) = 1
  /\ printed (trace agent_fails_world)
     = echo_lines agent_fails_world "What is the weather?"
  /\ exit_status (ending agent_fails_world) <> 0%Z
  /\ ((forall s e', In (EvCleanup s) (trace agent_fails_world) ->
                    mcp_cleanup agent_fails_world s <> Raise e') ->
      ending agent_fails_world = Uncaught (Exception "APIConnectionError")).
Proof.
  apply (agent_failure_is_fatal agent_fails_world
           (assistant {| model_id := "None" |} []) "What is the weather?"
           gateway_run).
  - vm_compute. find_event.
  - reflexivity.
Defined.
